(** * NDR nmap runner: staged network scan orchestration

    A shallow embedding of [ndr/nmap_runner.py] (classes [NmapConfig],
    [NmapRunner] and [NmapScanTypes]) together with the properties of the
    command construction, of the scan executor [run_scan] and of the phase
    orchestrator [run_network_scans].

    Python values are embedded as follows:
    - [str] as [string], lists as [list], [None]-able values as [option];
    - [ipaddress] address and network objects as their integer value ([Z])
      tagged with the address family;
    - side effects (temporary files, the nmap process, report signing and
      queueing) as a state-and-exception monad over an explicit [World];
    - exceptions as values of [exn]; an exception leaves the world as it was
      when it was raised. Logger calls have no observable effect on the
      sweep and are left out. *)

From Stdlib Require Import ZArith Ascii String List Lia Bool.
From stdpp Require Import base tactics option list strings gmap pretty.

Local Open Scope Z_scope.

(** ** Python string helpers *)

Module pystr.

(** [s.split(sep)] for a one-character separator: every occurrence of the
    separator cuts, empty fields are kept, and the empty string gives
    one empty field. *)
Fixpoint split (sep : ascii) (s : string) : list string :=
  match s with
  | EmptyString => [EmptyString]
  | String c rest =>
      if Ascii.eqb c sep then EmptyString :: split sep rest
      else match split sep rest with
           | [] => [String c EmptyString]
           | field :: fields => String c field :: fields
           end
  end.

(** [sep.join(parts)] *)
Fixpoint join (sep : string) (parts : list string) : string :=
  match parts with
  | [] => EmptyString
  | [p] => p
  | p :: rest => p +:+ sep +:+ join sep rest
  end.

(** [s.startswith(p)] *)
Fixpoint startswith (p s : string) : bool :=
  match p, s with
  | EmptyString, _ => true
  | String a p', String b s' => Ascii.eqb a b && startswith p' s'
  | String _ _, EmptyString => false
  end.

(** [needle in hay] *)
Fixpoint contains (needle hay : string) : bool :=
  startswith needle hay ||
  match hay with
  | EmptyString => false
  | String _ hay' => contains needle hay'
  end.

(** The characters of a string, for statements about its content. *)
Fixpoint chars (s : string) : list ascii :=
  match s with
  | EmptyString => []
  | String c rest => c :: chars rest
  end.

End pystr.

(** ** The [ipaddress] objects the runner handles

    Addresses are the integers [ipaddress] stores in [_ip]; a network is its
    network address and prefix length. Only the attributes the runner reads
    are modelled: [version], [is_link_local] and [compressed]. *)

Module ipaddress.

Inductive IPAddress : Type :=
| IPv4Address (ip : Z)
| IPv6Address (ip : Z).

Record IPNetwork : Type := mkNetwork {
  network_address : IPAddress;
  prefixlen : Z
}.

Definition version (a : IPAddress) : Z :=
  match a with IPv4Address _ => 4 | IPv6Address _ => 6 end.

Definition max_prefixlen (a : IPAddress) : Z :=
  match a with IPv4Address _ => 32 | IPv6Address _ => 128 end.

Definition net_version (n : IPNetwork) : Z := version (network_address n).

(** [is_link_local]: membership of 169.254.0.0/16, respectively fe80::/10. *)
Definition is_link_local (a : IPAddress) : bool :=
  match a with
  | IPv4Address ip => Z.shiftr ip 16 =? 0xA9FE
  | IPv6Address ip => Z.shiftr ip 118 =? 0x3FA
  end.

(** Dotted-quad text of an IPv4 integer. *)
Definition octet (ip : Z) (i : Z) : Z := Z.land (Z.shiftr ip (24 - 8 * i)) 255.

Definition v4_string (ip : Z) : string :=
  pystr.join "." (map (fun i => pretty (octet ip i)) [0; 1; 2; 3]).

(** ['%x' % d] for one hexadecimal digit. *)
Definition hex_digit (d : Z) : ascii :=
  match d with
  | 0 => "0" | 1 => "1" | 2 => "2" | 3 => "3" | 4 => "4" | 5 => "5"
  | 6 => "6" | 7 => "7" | 8 => "8" | 9 => "9" | 10 => "a" | 11 => "b"
  | 12 => "c" | 13 => "d" | 14 => "e" | _ => "f"
  end%char.

(** ['%x' % h] for a 16-bit group: lower case, no leading zeros. *)
Definition format_x (h : Z) : string :=
  let d (k : Z) := hex_digit (Z.land (Z.shiftr h (4 * k)) 15) in
  if 0 <? Z.shiftr h 12 then String (d 3) (String (d 2) (String (d 1) (String (d 0) EmptyString)))
  else if 0 <? Z.shiftr h 8 then String (d 2) (String (d 1) (String (d 0) EmptyString))
  else if 0 <? Z.shiftr h 4 then String (d 1) (String (d 0) EmptyString)
  else String (d 0) EmptyString.

Definition hextet (ip : Z) (i : Z) : Z := Z.land (Z.shiftr ip (112 - 16 * i)) 0xFFFF.

Definition hextets (ip : Z) : list string :=
  map (fun i => format_x (hextet ip i)) [0; 1; 2; 3; 4; 5; 6; 7].

(** The scan for the longest run of zero groups in [_compress_hextets]:
    the first longest run wins; [-1] means no run. *)
Record doublecolon : Type := mkDc {
  best_doublecolon_start : Z;
  best_doublecolon_len : Z;
  doublecolon_start : Z;
  doublecolon_len : Z
}.

Definition doublecolon_step (st : doublecolon) (item : Z * string) : doublecolon :=
  let '(index, h) := item in
  if String.eqb h "0" then
    let len := doublecolon_len st + 1 in
    let start := if doublecolon_start st =? -1 then index else doublecolon_start st in
    if best_doublecolon_len st <? len
    then mkDc start len start len
    else mkDc (best_doublecolon_start st) (best_doublecolon_len st) start len
  else mkDc (best_doublecolon_start st) (best_doublecolon_len st) (-1) 0.

Fixpoint enumerate_from {A : Type} (i : Z) (l : list A) : list (Z * A) :=
  match l with
  | [] => []
  | x :: rest => (i, x) :: enumerate_from (i + 1) rest
  end.

Definition compress_hextets (hs : list string) : list string :=
  let st := fold_left doublecolon_step (enumerate_from 0 hs) (mkDc (-1) 0 (-1) 0) in
  if 1 <? best_doublecolon_len st then
    let best_start := best_doublecolon_start st in
    let best_end := best_start + best_doublecolon_len st in
    let hs1 := if best_end =? Z.of_nat (length hs) then hs ++ [EmptyString] else hs in
    let hs2 := take (Z.to_nat best_start) hs1 ++ [EmptyString] ++ drop (Z.to_nat best_end) hs1 in
    if best_start =? 0 then EmptyString :: hs2 else hs2
  else hs.

Definition v6_string (ip : Z) : string :=
  pystr.join ":" (compress_hextets (hextets ip)).

(** [address.compressed] *)
Definition compressed (a : IPAddress) : string :=
  match a with
  | IPv4Address ip => v4_string ip
  | IPv6Address ip => v6_string ip
  end.

(** [network.compressed]: ['%s/%d' % (network_address, prefixlen)] *)
Definition net_compressed (n : IPNetwork) : string :=
  compressed (network_address n) +:+ "/" +:+ pretty (prefixlen n).

End ipaddress.

Import ipaddress.

(** ** Scan categories ([NmapScanTypes]) *)

Inductive NmapScanTypes : Type :=
| ARP_DISCOVERY
| IPV6_LINK_LOCAL_DISCOVERY
| IP_PROTOCOL_DETECTION
| PORT_SCAN
| SERVICE_DISCOVERY
| ND_DISCOVERY.

Definition scan_type_value (t : NmapScanTypes) : string :=
  match t with
  | ARP_DISCOVERY => "arp-discovery"
  | IPV6_LINK_LOCAL_DISCOVERY => "ipv6-link-local-discovery"
  | IP_PROTOCOL_DETECTION => "ip-protocol-detection"
  | PORT_SCAN => "port-scan"
  | SERVICE_DISCOVERY => "service-discovery"
  | ND_DISCOVERY => "nd-discovery"
  end.

(** ** [NmapConfig] *)

(** An address entry of a managed interface. The configuration only calls
    its [ip_network()] method, whose result is the field. *)
Record InterfaceAddress : Type := mkInterfaceAddress {
  ip_network : IPNetwork
}.

(** A managed interface as [get_all_managed_interfaces()] reports it. *)
Record Interface : Type := mkInterface {
  name : string;
  current_ip_addresses : list InterfaceAddress
}.

Record NmapConfig : Type := mkNmapConfig {
  scan_interfaces : list string;
  networks_to_scan : list IPNetwork;
  blacklisted_hosts : list IPAddress
}.

(** The inner loop of [NmapConfig.__init__]: one [append] per address. *)
Definition append_networks (addrs : list InterfaceAddress) (nets : list IPNetwork)
  : list IPNetwork :=
  fold_left (fun acc addr => acc ++ [ip_network addr]) addrs nets.

(** The outer loop of [NmapConfig.__init__]. *)
Fixpoint select_interfaces (interfaces : list Interface) (self : NmapConfig) : NmapConfig :=
  match interfaces with
  | [] => self
  | interface :: rest =>
      if negb (pystr.contains "lan" (name interface))
      then select_interfaces rest self
      else select_interfaces rest
             {| scan_interfaces := scan_interfaces self ++ [name interface];
                networks_to_scan :=
                  append_networks (current_ip_addresses interface) (networks_to_scan self);
                blacklisted_hosts := blacklisted_hosts self |}
  end.

(** [NmapConfig.__init__], given the interfaces the network configuration
    reports. *)
Definition NmapConfig_init (interfaces : list Interface) : NmapConfig :=
  select_interfaces interfaces
    {| scan_interfaces := []; networks_to_scan := []; blacklisted_hosts := [] |}.

(** ** Scan results, exceptions and the world *)

(** What [run_scan] is handed as [target]: an address or a network object;
    both have [compressed]. *)
Inductive ScanTarget : Type :=
| Address (a : IPAddress)
| Network (n : IPNetwork).

Definition target_compressed (t : ScanTarget) : string :=
  match t with
  | Address a => compressed a
  | Network n => net_compressed n
  end.

(** [ipaddress.ip_network(target.compressed)]: the text of an address
    denotes the network of that single host (prefix 32 or 128), the text of
    a network denotes that network. *)
Definition ip_network_of_compressed (t : ScanTarget) : IPNetwork :=
  match t with
  | Address a => mkNetwork a (max_prefixlen a)
  | Network n => n
  end.

(** Modelled from the spec: the class [ndr.NmapScan], which lives outside
    this module. A scan result carries its category, its target and the
    ordered list of discovered addresses; [hosts] is what [full_ip_list()]
    returns. *)
Record NmapScan : Type := mkNmapScan {
  scan_type : option NmapScanTypes;
  scan_target : option string;
  hosts : list IPAddress
}.

Definition full_ip_list (scan : NmapScan) : list IPAddress := hosts scan.

(** Modelled from the spec: the constructor [ndr.NmapScan(config=...)]. A
    fresh scan has no category, no target (the target is left unset for
    untargeted scans) and no hosts. *)
Definition NmapScan_new : NmapScan := mkNmapScan None None [].

(** The exceptions of a sweep on a platform whose own calls succeed: the
    failure of the engine, the [TypeError] of an in-depth scan, a file
    that is not there, the error of the parser. What the platform itself
    can raise in [run_scan] (no temporary file, an engine that cannot be
    started, bytes that cannot be decoded, a file that cannot be opened or
    removed) is in [Fallible.exn] below. *)
Inductive exn : Type :=
| NmapFailure (code : Z) (message : string)
| TypeError
| FileNotFoundError (path : string)
| ParseError (message : string).

(** The class name of an exception. *)
Definition exn_name (e : exn) : string :=
  match e with
  | NmapFailure _ _ => "NmapFailure"
  | TypeError => "TypeError"
  | FileNotFoundError _ => "FileNotFoundError"
  | ParseError _ => "ParseError"
  end.

(** What one run of the nmap process does: its exit status, its standard
    error decoded as UTF-8, and the files it wrote. *)
Record NmapProcess : Type := mkNmapProcess {
  returncode : Z;
  stderr : string;
  files_written : list (string * string)
}.

(** Observable actions of a sweep, oldest first. *)
Inductive Event : Type :=
| Exec (args : list string) (status : Z)
| SignReport (scan : NmapScan)
| LoadIntoQueue (scan : NmapScan).

Record World : Type := mkWorld {
  fs : gmap string string;
  tmp_seq : nat;
  nmap_runs : nat;
  events : list Event
}.

(** The collaborators outside this module: the nmap executable (its
    behaviour may depend on how many runs came before and on its arguments)
    and the parser behind [NmapScan.parse_nmap_xml], which yields the hosts
    of the scan or fails with a message when the document cannot be
    interpreted. *)
Class Collaborators : Type := mkCollaborators {
  nmap : nat -> list string -> NmapProcess;
  parse_nmap_xml : string -> string + list IPAddress
}.

(** ** The state-and-exception monad *)

Definition M (A : Type) : Type := World -> (exn + A) * World.

Definition ret {A : Type} (a : A) : M A := fun w => (inr a, w).

Definition raise {A : Type} (e : exn) : M A := fun w => (inl e, w).

Definition bind {A B : Type} (c : M A) (k : A -> M B) : M B :=
  fun w =>
    match c w with
    | (inl e, w') => (inl e, w')
    | (inr a, w') => k a w'
    end.

Notation "x <- c ;; k" := (bind c (fun x => k))
  (at level 100, c at next level, right associativity).
Notation "c ;;; k" := (bind c (fun _ => k))
  (at level 100, right associativity).

(** [tempfile.mkstemp()]: creates an empty file under a name never handed
    out before and returns the descriptor and the path. The random names
    of the library are replaced by a running number. The call is taken to
    succeed and the open descriptor is not counted; [Fallible.mkstemp]
    has the failure and the count. *)
Definition tmp_path (n : nat) : string := "/tmp/tmp" +:+ pretty n.

Definition mkstemp : M (Z * string) :=
  fun w =>
    let path := tmp_path (tmp_seq w) in
    (inr (3 + Z.of_nat (tmp_seq w), path),
     {| fs := <[path := EmptyString]> (fs w);
        tmp_seq := S (tmp_seq w);
        nmap_runs := nmap_runs w;
        events := events w |}).

Definition write_files (files : list (string * string)) (m : gmap string string)
  : gmap string string :=
  fold_left (fun acc pc => <[fst pc := snd pc]> acc) files m.

(** [open(path, 'r').read()] on a platform that can open the file and
    reads it as it is; [Fallible.read_file] has the failure of [open] and
    the decoding of text mode. *)
Definition read_file (path : string) : M string :=
  fun w =>
    match fs w !! path with
    | Some content => (inr content, w)
    | None => (inl (FileNotFoundError path), w)
    end.

(** [os.remove(path)] *)
Definition os_remove (path : string) : M unit :=
  fun w =>
    match fs w !! path with
    | Some _ =>
        (inr tt,
         {| fs := delete path (fs w); tmp_seq := tmp_seq w;
            nmap_runs := nmap_runs w; events := events w |})
    | None => (inl (FileNotFoundError path), w)
    end.

Definition log_event (e : Event) : M unit :=
  fun w =>
    (inr tt,
     {| fs := fs w; tmp_seq := tmp_seq w; nmap_runs := nmap_runs w;
        events := events w ++ [e] |}).

(** Modelled from the spec: [scan.sign_report()] and
    [scan.load_into_queue()], methods of [ndr.NmapScan]. Their effects lie
    outside this module; here each leaves one event. *)
Definition sign_report (scan : NmapScan) : M unit := log_event (SignReport scan).
Definition load_into_queue (scan : NmapScan) : M unit := log_event (LoadIntoQueue scan).

(** ** [NmapRunner] *)

Section Runner.

Context `{Collaborators}.

(** [subprocess.run(args=..., check=False)] of an engine that can be
    started; [Fallible.subprocess_run] has the failure of the start. *)
Definition subprocess_run (args : list string) : M NmapProcess :=
  fun w =>
    let proc := nmap (nmap_runs w) args in
    (inr proc,
     {| fs := write_files (files_written proc) (fs w);
        tmp_seq := tmp_seq w;
        nmap_runs := S (nmap_runs w);
        events := events w ++ [Exec args (returncode proc)] |}).

(** Modelled from the spec: the method [nmap_scan.parse_nmap_xml(xml_output)]
    of [ndr.NmapScan]. It fills in the discovered hosts, or fails when the
    document cannot be interpreted, and leaves category and target alone. *)
Definition parse_into (nmap_scan : NmapScan) (xml_output : string) : M NmapScan :=
  match parse_nmap_xml xml_output with
  | inl msg => raise (ParseError msg)
  | inr found =>
      ret {| scan_type := scan_type nmap_scan;
             scan_target := scan_target nmap_scan;
             hosts := found |}
  end.

(** The command line [run_scan] builds, given the temporary file path. *)
Definition nmap_cmd (options xml_path : string) (target : option ScanTarget)
  : list string :=
  let nmap_cmd := ["nmap"%string] in
  let nmap_cmd := nmap_cmd ++ pystr.split " " options in
  let nmap_cmd := nmap_cmd ++ ["-oX"%string; xml_path] in
  match target with
  | Some t => nmap_cmd ++ [target_compressed t]
  | None => nmap_cmd
  end.

(** [run_scan] on that platform, with the standard error of the engine
    taken as text already; [Fallible.run_scan] decodes it inside the
    [raise], as the source does, and [run_scan_agrees_without_failures]
    relates the two. *)
Definition run_scan (type : NmapScanTypes) (options : string)
           (target : option ScanTarget) : M NmapScan :=
  xml_logfile <- mkstemp ;;
  nmap_proc <- subprocess_run (nmap_cmd options (snd xml_logfile) target) ;;
  if negb (returncode nmap_proc =? 0)
  then raise (NmapFailure (returncode nmap_proc) (stderr nmap_proc))
  else
    xml_output <- read_file (snd xml_logfile) ;;
    os_remove (snd xml_logfile) ;;;
    nmap_scan <- parse_into NmapScan_new xml_output ;;
    let nmap_scan :=
      {| scan_type := Some type;
         scan_target := scan_target nmap_scan;
         hosts := hosts nmap_scan |} in
    match target with
    | Some t =>
        let target_net := ip_network_of_compressed t in
        ret {| scan_type := scan_type nmap_scan;
               scan_target := Some (net_compressed target_net);
               hosts := hosts nmap_scan |}
    | None => ret nmap_scan
    end.

Definition arp_host_discovery_scan (network : IPNetwork) : M NmapScan :=
  run_scan ARP_DISCOVERY "-sn -R -PR" (Some (Network network)).

Definition nd_host_discovery_scan (network : IPNetwork) : M NmapScan :=
  run_scan ND_DISCOVERY "-6 -R -sn -PR" (Some (Network network)).

Definition v6_link_local_scan (interface : string) : M NmapScan :=
  run_scan IPV6_LINK_LOCAL_DISCOVERY
    ("-6 -R -sn -e " +:+ interface +:+
     " --script=targets-ipv6-multicast-* --script-args=newtargets")
    None.

Definition basic_host_scan (network : IPNetwork) : M NmapScan :=
  run_scan PORT_SCAN "-sS" (Some (Network network)).

Definition protocol_scan_flags (network : IPNetwork) : string :=
  let nmap_flags := "-sO"%string in
  if net_version network =? 6 then "-6" +:+ nmap_flags else nmap_flags.

Definition protocol_scan (network : IPNetwork) : M NmapScan :=
  run_scan IP_PROTOCOL_DETECTION (protocol_scan_flags network) (Some (Network network)).

(** The option string of [indepth_host_scan]. Concatenating [None] to a
    [str] raises [TypeError]. *)
Definition indepth_options (ipaddr : IPAddress) (interface : option string)
  : exn + string :=
  let base_nmap_options := "-sS -A -T4"%string in
  let options := base_nmap_options in
  let options := if version ipaddr =? 6 then "-6 " +:+ options else options in
  if is_link_local ipaddr then
    match interface with
    | Some i => inr ("-e " +:+ i +:+ " " +:+ options)
    | None => inl TypeError
    end
  else inr options.

Definition indepth_host_scan (address : IPAddress) (interface : option string)
  : M NmapScan :=
  match indepth_options address interface with
  | inl e => raise e
  | inr options => run_scan SERVICE_DISCOVERY options (Some (Address address))
  end.

(** The local function [process_and_send_scan] of [run_network_scans]. *)
Definition process_and_send_scan (scan : NmapScan) (interface : option string)
  : M (list (IPAddress * option string)) :=
  let hosts_in_scan := map (fun found_ip => (found_ip, interface)) (full_ip_list scan) in
  sign_report scan ;;;
  load_into_queue scan ;;;
  ret hosts_in_scan.

(** Phase 1: link-local discovery on every interface. *)
Fixpoint link_local_discovery (interfaces : list string)
         (discovered_hosts : list (IPAddress * option string))
  : M (list (IPAddress * option string)) :=
  match interfaces with
  | [] => ret discovered_hosts
  | interface :: rest =>
      ipv6_ll_scan <- v6_link_local_scan interface ;;
      found <- process_and_send_scan ipv6_ll_scan (Some interface) ;;
      link_local_discovery rest (discovered_hosts ++ found)
  end.

(** Phase 2: ARP or ND host discovery on every network. *)
Fixpoint network_discovery (networks : list IPNetwork)
         (discovered_hosts : list (IPAddress * option string))
  : M (list (IPAddress * option string)) :=
  match networks with
  | [] => ret discovered_hosts
  | network :: rest =>
      discovery <- (if net_version network =? 4
                    then arp_host_discovery_scan network
                    else nd_host_discovery_scan network) ;;
      found <- process_and_send_scan discovery None ;;
      network_discovery rest (discovered_hosts ++ found)
  end.

(** Phase 3: protocol discovery; the hosts it returns are dropped. *)
Fixpoint protocol_discovery (networks : list IPNetwork) : M unit :=
  match networks with
  | [] => ret tt
  | network :: rest =>
      scan <- protocol_scan network ;;
      process_and_send_scan scan None ;;;
      protocol_discovery rest
  end.

(** Phase 4: in-depth scan of every discovered host. *)
Fixpoint host_scanning (discovered_hosts : list (IPAddress * option string)) : M unit :=
  match discovered_hosts with
  | [] => ret tt
  | host_tuple :: rest =>
      host_scan <- indepth_host_scan (fst host_tuple) (snd host_tuple) ;;
      process_and_send_scan host_scan None ;;;
      host_scanning rest
  end.

(** Phases 1 to 3, returning [discovered_hosts] as phase 4 receives it. *)
Definition discovery_phases (nmap_config : NmapConfig)
  : M (list (IPAddress * option string)) :=
  discovered_hosts <- link_local_discovery (scan_interfaces nmap_config) [] ;;
  discovered_hosts <- network_discovery (networks_to_scan nmap_config) discovered_hosts ;;
  protocol_discovery (networks_to_scan nmap_config) ;;;
  ret discovered_hosts.

Definition run_network_scans (nmap_config : NmapConfig) : M unit :=
  discovered_hosts <- link_local_discovery (scan_interfaces nmap_config) [] ;;
  discovered_hosts <- network_discovery (networks_to_scan nmap_config) discovered_hosts ;;
  protocol_discovery (networks_to_scan nmap_config) ;;;
  host_scanning discovered_hosts.

End Runner.

(** ** Concrete collaborators for worked scenarios *)

(** The path following [-oX] on a command line. *)
Fixpoint xml_sink (args : list string) : string :=
  match args with
  | [] => EmptyString
  | a :: rest =>
      if String.eqb a "-oX"
      then match rest with p :: _ => p | [] => EmptyString end
      else xml_sink rest
  end.

(** An nmap that follows a script: run [n] exits with the [n]-th status and
    message and writes the [n]-th document to its [-oX] file; past the end
    of the script it succeeds with an empty document. *)
Definition scripted_nmap (script : list (Z * string * string))
  : nat -> list string -> NmapProcess :=
  fun n args =>
    match nth_error script n with
    | Some (status, message, xml) => mkNmapProcess status message [(xml_sink args, xml)]
    | None => mkNmapProcess 0 EmptyString [(xml_sink args, EmptyString)]
    end.

(** A parser that knows a table of documents and rejects everything else;
    the empty document has no hosts. *)
Fixpoint table_parser (table : list (string * list IPAddress)) (xml : string)
  : string + list IPAddress :=
  match table with
  | [] => if String.eqb xml EmptyString then inr [] else inl "not well-formed"%string
  | (doc, found) :: rest =>
      if String.eqb xml doc then inr found else table_parser rest xml
  end.

Definition empty_world : World :=
  {| fs := ∅; tmp_seq := 0; nmap_runs := 0; events := [] |}.

Definition host_fe80_1 : IPAddress := IPv6Address 0xfe800000000000000000000000000001.
Definition host_192_168_1_5 : IPAddress := IPv4Address 0xC0A80105.
Definition host_169_254_1_1 : IPAddress := IPv4Address 0xA9FE0101.
Definition net_192_168_1_0_24 : IPNetwork := mkNetwork (IPv4Address 0xC0A80100) 24.
Definition net_10_0_0_0_24 : IPNetwork := mkNetwork (IPv4Address 0x0A000000) 24.
Definition net_2001_db8_32 : IPNetwork :=
  mkNetwork (IPv6Address 0x20010db8000000000000000000000000) 32.

Definition net_fe80_64 : IPNetwork :=
  mkNetwork (IPv6Address 0xfe800000000000000000000000000000) 64.

Definition known_documents : list (string * list IPAddress) :=
  [("<ll/>"%string, [host_fe80_1]);
   ("<arp/>"%string, [host_192_168_1_5])].

(** The managed interfaces of the worked sweep: [eth0] is not a LAN
    interface; [lan0] carries two addresses of 192.168.1.0/24, so that
    network is listed twice. *)
Definition lan_interfaces : list Interface :=
  [mkInterface "eth0" [mkInterfaceAddress net_10_0_0_0_24];
   mkInterface "lan0" [mkInterfaceAddress net_192_168_1_0_24;
                       mkInterfaceAddress net_192_168_1_0_24]].

(** Link-local discovery finds fe80::1, each ARP discovery finds
    192.168.1.5, every later scan finds nothing. *)
Definition sweep_collaborators : Collaborators :=
  {| nmap := scripted_nmap
       [(0, EmptyString, "<ll/>"%string); (0, EmptyString, "<arp/>"%string);
        (0, EmptyString, "<arp/>"%string)];
     parse_nmap_xml := table_parser known_documents |}.

(** The engine exits with status 1 on its second run (the first scan of
    phase 2). *)
Definition failing_collaborators : Collaborators :=
  {| nmap := scripted_nmap
       [(0, EmptyString, "<ll/>"%string); (1, "route down"%string, EmptyString)];
     parse_nmap_xml := table_parser known_documents |}.

(** The engine exits with status 0 but leaves a document the parser
    rejects. *)
Definition garbled_collaborators : Collaborators :=
  {| nmap := scripted_nmap [(0, EmptyString, "<nmaprun"%string)];
     parse_nmap_xml := table_parser known_documents |}.

(** The engine exits with status 1 on its first run. *)
Definition broken_collaborators : Collaborators :=
  {| nmap := scripted_nmap [(1, "failed to open device lan0"%string, EmptyString)];
     parse_nmap_xml := table_parser known_documents |}.

(** The first ARP discovery reports the link-local host fe80::1. *)
Definition stray_collaborators : Collaborators :=
  {| nmap := scripted_nmap
       [(0, EmptyString, "<ll/>"%string); (0, EmptyString, "<ll/>"%string)];
     parse_nmap_xml := table_parser known_documents |}.

(** A world with one file and nothing done yet. *)
Definition hosts_file_world : World :=
  {| fs := {["/etc/hosts"%string := "127.0.0.1 localhost"%string]};
     tmp_seq := 0; nmap_runs := 0; events := [] |}.

(** The configuration of the worked sweep with 192.168.1.5 blacklisted. *)
Definition blacklisting_config : NmapConfig :=
  {| scan_interfaces := scan_interfaces (NmapConfig_init lan_interfaces);
     networks_to_scan := networks_to_scan (NmapConfig_init lan_interfaces);
     blacklisted_hosts := [host_192_168_1_5] |}.

(** ** Vocabulary of the properties *)

(** The command lines handed to the engine, oldest first. *)
Fixpoint commands (evs : list Event) : list (list string) :=
  match evs with
  | [] => []
  | Exec args _ :: rest => args :: commands rest
  | _ :: rest => commands rest
  end.

(** The scans handed to the queue, oldest first. *)
Fixpoint queued (evs : list Event) : list NmapScan :=
  match evs with
  | [] => []
  | LoadIntoQueue scan :: rest => scan :: queued rest
  | _ :: rest => queued rest
  end.


(** The CIDR text of a target as the specification words it: a network
    as address, slash, prefix length; a single address as the network of
    that one host. *)
Definition cidr_form (t : ScanTarget) : string :=
  match t with
  | Address (IPv4Address ip) => v4_string ip +:+ "/32"
  | Address (IPv6Address ip) => v6_string ip +:+ "/128"
  | Network n => compressed (network_address n) +:+ "/" +:+ pretty (prefixlen n)
  end.

(** [s] occurs in [t] as a substring. *)
Definition substring_of (s t : string) : Prop :=
  exists before after : string, t = before +:+ s +:+ after.

(** The discovered hosts of a scan as [process_and_send_scan] tags them. *)
Definition tagged (interface : option string) (scan : NmapScan)
  : list (IPAddress * option string) :=
  map (fun found_ip => (found_ip, interface)) (hosts scan).

(** The selection test of [NmapConfig.__init__] and the networks an
    interface is bound to. *)
Definition lan_like (interface : Interface) : bool :=
  pystr.contains "lan" (name interface).

Definition bound_networks (interface : Interface) : list IPNetwork :=
  map ip_network (current_ip_addresses interface).

(** What one call of [run_scan] meets, read off the world it starts in. *)
Section Outcome.

Context `{Collaborators}.

(** The command line the call hands to the engine. *)
Definition issued_command (options : string) (target : option ScanTarget) (w : World)
  : list string :=
  nmap_cmd options (tmp_path (tmp_seq w)) target.

(** What the engine does on that command line. *)
Definition engine_run (options : string) (target : option ScanTarget) (w : World)
  : NmapProcess :=
  nmap (nmap_runs w) (issued_command options target w).

(** The files once the engine has exited. *)
Definition files_after_engine (options : string) (target : option ScanTarget) (w : World)
  : gmap string string :=
  write_files (files_written (engine_run options target w))
              (<[tmp_path (tmp_seq w) := EmptyString]> (fs w)).

(** The content of the temporary file once the engine has exited. *)
Definition xml_document (options : string) (target : option ScanTarget) (w : World)
  : string :=
  default EmptyString (files_after_engine options target w !! tmp_path (tmp_seq w)).

Definition events_after_engine (options : string) (target : option ScanTarget) (w : World)
  : list Event :=
  events w ++ [Exec (issued_command options target w)
                    (returncode (engine_run options target w))].

(** The world in which [NmapFailure] is raised. *)
Definition world_at_failure (options : string) (target : option ScanTarget) (w : World)
  : World :=
  {| fs := files_after_engine options target w;
     tmp_seq := S (tmp_seq w);
     nmap_runs := S (nmap_runs w);
     events := events_after_engine options target w |}.

(** The world once the temporary file has been read and removed. *)
Definition world_after_remove (options : string) (target : option ScanTarget) (w : World)
  : World :=
  {| fs := delete (tmp_path (tmp_seq w)) (files_after_engine options target w);
     tmp_seq := S (tmp_seq w);
     nmap_runs := S (nmap_runs w);
     events := events_after_engine options target w |}.

(** The scan [run_scan] returns when the parser found [found]. *)
Definition returned_scan (type : NmapScanTypes) (target : option ScanTarget)
           (found : list IPAddress) : NmapScan :=
  {| scan_type := Some type;
     scan_target := option_map (fun t => net_compressed (ip_network_of_compressed t)) target;
     hosts := found |}.

(** The world once the returned scan has been signed and queued. *)
Definition world_after_queue (type : NmapScanTypes) (options : string)
           (target : option ScanTarget) (found : list IPAddress) (w : World) : World :=
  {| fs := delete (tmp_path (tmp_seq w)) (files_after_engine options target w);
     tmp_seq := S (tmp_seq w);
     nmap_runs := S (nmap_runs w);
     events := (events_after_engine options target w
                  ++ [SignReport (returned_scan type target found)])
                 ++ [LoadIntoQueue (returned_scan type target found)] |}.

End Outcome.




(** How the scans of each phase relate to the item they were run for. *)
Definition link_local_scan_of (scan : NmapScan) (interface : string) : Prop :=
  scan_type scan = Some IPV6_LINK_LOCAL_DISCOVERY /\ scan_target scan = None.

Definition discovery_scan_of (scan : NmapScan) (network : IPNetwork) : Prop :=
  scan_type scan
  = Some (if net_version network =? 4 then ARP_DISCOVERY else ND_DISCOVERY)
  /\ scan_target scan = Some (net_compressed network).

Definition protocol_scan_of (scan : NmapScan) (network : IPNetwork) : Prop :=
  scan_type scan = Some IP_PROTOCOL_DETECTION
  /\ scan_target scan = Some (net_compressed network).

(** [cmd] is the in-depth command line for the frontier entry [host]. *)
Definition indepth_command_of (cmd : list string) (host : IPAddress * option string)
  : Prop :=
  exists options path : string,
    indepth_options (fst host) (snd host) = inr options
    /\ cmd = nmap_cmd options path (Some (Address (fst host))).

(** The frontier the discoveries add up to: the hosts of the link-local
    scans, each tagged with the interface of its scan, then the hosts of
    the network discovery scans, untagged. *)
Definition frontier_of (link_local : list NmapScan) (interfaces : list string)
           (discovery : list NmapScan) : list (IPAddress * option string) :=
  concat (zip_with (fun scan interface => tagged (Some interface) scan)
                   link_local interfaces)
  ++ concat (map (tagged None) discovery).

(** ** Further vocabulary *)

(** The text [run_scan] writes to the debug log for a command line:
    [' '.join(nmap_cmd)]. *)
Definition logged_command (options xml_path : string) (target : option ScanTarget)
  : string :=
  pystr.join " " (nmap_cmd options xml_path target).

(** The number of spaces in a string. *)
Definition spaces (s : string) : nat :=
  count_occ ascii_dec (pystr.chars s) " "%char.

(** The document the engine wrote last under [path], if it wrote any. *)
Fixpoint last_written (path : string) (files : list (string * string)) : option string :=
  match files with
  | [] => None
  | (p, content) :: rest =>
      match last_written path rest with
      | Some later => Some later
      | None => if decide (p = path) then Some content else None
      end
  end.

(** The exception a computation ended in, if any. *)
Definition outcome_error {A : Type} (r : exn + A) : option exn :=
  match r with
  | inl e => Some e
  | inr _ => None
  end.

(** A relation between the world a part of the sweep starts in, the
    exception it ends in (if any) and the world it ends in is a rule of
    the scan loops when it holds of doing nothing, is carried along a
    normal end, and holds of each of the three ways a scan followed by
    [process_and_send_scan] can end. *)
Definition scan_rule `{Collaborators}
           (Q : World -> option exn -> World -> Prop) : Prop :=
  (forall w, Q w None w)
  /\ (forall w1 w2 w3 r, Q w1 None w2 -> Q w2 r w3 -> Q w1 r w3)
  /\ (forall options target w,
         returncode (engine_run options target w) <> 0 ->
         Q w (Some (NmapFailure (returncode (engine_run options target w))
                                (stderr (engine_run options target w))))
           (world_at_failure options target w))
  /\ (forall options target w msg,
         returncode (engine_run options target w) = 0 ->
         parse_nmap_xml (xml_document options target w) = inl msg ->
         Q w (Some (ParseError msg)) (world_after_remove options target w))
  /\ (forall type options target w found,
         returncode (engine_run options target w) = 0 ->
         parse_nmap_xml (xml_document options target w) = inr found ->
         Q w None (world_after_queue type options target found w)).

(** The computation [c] follows the rule [Q] from every world. *)
Definition follows {A : Type} (Q : World -> option exn -> World -> Prop) (c : M A)
  : Prop :=
  forall w : World, Q w (outcome_error (fst (c w))) (snd (c w)).

(** The command line of each phase for the item it is run for. *)
Definition link_local_command_of (cmd : list string) (interface : string) : Prop :=
  exists path : string,
    cmd = ["nmap"; "-6"; "-R"; "-sn"; "-e"]%string ++ pystr.split " " interface
          ++ ["--script=targets-ipv6-multicast-*"; "--script-args=newtargets";
              "-oX"; path]%string.

Definition discovery_command_of (cmd : list string) (network : IPNetwork) : Prop :=
  exists path : string,
    cmd = if net_version network =? 4
          then ["nmap"; "-sn"; "-R"; "-PR"; "-oX"; path; net_compressed network]%string
          else ["nmap"; "-6"; "-R"; "-sn"; "-PR"; "-oX"; path;
                net_compressed network]%string.

Definition protocol_command_of (cmd : list string) (network : IPNetwork) : Prop :=
  exists path : string,
    cmd = ["nmap"%string;
           if net_version network =? 6 then "-6-sO"%string else "-sO"%string;
           "-oX"%string; path; net_compressed network].

(** ** The scan executor with the failures of the platform

    The sweep above is written for a platform whose calls succeed: a
    temporary file can always be created, the engine can always be
    started, its standard error and its document are always readable as
    text. [run_scan] itself has more ways to end, and this module models
    it with them: [tempfile.mkstemp] and [subprocess.run] may raise, the
    standard error of the engine is a byte string that is decoded as UTF-8
    inside the [raise] statement, and the temporary file is read in text
    mode. The descriptor [mkstemp] returns is counted, because [run_scan]
    never closes it. *)

Module Fallible.

Inductive exn : Type :=
| NmapFailure (code : Z) (message : string)
| UnicodeDecodeError
| OSError (message : string)
| ValueError (message : string)
| ParseError (message : string).

(** How [subprocess.run] can fail to start the engine: an [OSError] (the
    executable is missing or may not be run, no descriptor is left for
    the pipes) or the [ValueError] of an argument with a NUL byte. *)
Inductive SpawnError : Type :=
| SpawnOSError (message : string)
| SpawnValueError (message : string).

Definition spawn_exn (e : SpawnError) : exn :=
  match e with
  | SpawnOSError message => OSError message
  | SpawnValueError message => ValueError message
  end.

(** What [subprocess.run] returns: the exit status, the bytes captured
    from standard error, and the files the process wrote. *)
Record CompletedProcess : Type := mkCompletedProcess {
  returncode : Z;
  stderr : string;
  files_written : list (string * string)
}.

(** The platform: whether the [n]-th call of [mkstemp] raises [OSError],
    what starting the engine for the [n]-th time gives, whether opening a
    path for reading raises [OSError] (no descriptor left, no permission),
    how a file read in text mode is decoded (the encoding of the locale
    and the translation of line ends; [None] when the bytes cannot be
    decoded), whether removing a path raises [OSError], and the parser
    behind [NmapScan.parse_nmap_xml]. *)
Class Platform : Type := mkPlatform {
  tmp_failure : nat -> option string;
  engine : nat -> list string -> SpawnError + CompletedProcess;
  open_failure : string -> option string;
  text_of : string -> option string;
  remove_failure : string -> option string;
  parser : string -> string + list IPAddress
}.

Record World : Type := mkWorld {
  fs : gmap string string;
  tmp_seq : nat;
  nmap_runs : nat;
  open_fds : nat;
  events : list Event
}.

Definition M (A : Type) : Type := World -> (exn + A) * World.

Definition ret {A : Type} (a : A) : M A := fun w => (inr a, w).

Definition raise {A : Type} (e : exn) : M A := fun w => (inl e, w).

Definition bind {A B : Type} (c : M A) (k : A -> M B) : M B :=
  fun w =>
    match c w with
    | (inl e, w') => (inl e, w')
    | (inr a, w') => k a w'
    end.

(** ** Strict UTF-8 decoding of a byte string

    Text is kept as its UTF-8 bytes, so decoding is the test that the
    bytes are well formed: no stray continuation byte, no overlong form,
    no surrogate, nothing above U+10FFFF. *)

Definition byte_in (lo hi : N) (c : ascii) : bool :=
  ((lo <=? N_of_ascii c) && (N_of_ascii c <=? hi))%N.

Definition continuation (c : ascii) : bool := byte_in 0x80 0xBF c.

Definition lead3 (a b : ascii) : bool :=
  (byte_in 0xE0 0xE0 a && byte_in 0xA0 0xBF b)
  || (byte_in 0xE1 0xEC a && continuation b)
  || (byte_in 0xED 0xED a && byte_in 0x80 0x9F b)
  || (byte_in 0xEE 0xEF a && continuation b).

Definition lead4 (a b : ascii) : bool :=
  (byte_in 0xF0 0xF0 a && byte_in 0x90 0xBF b)
  || (byte_in 0xF1 0xF3 a && continuation b)
  || (byte_in 0xF4 0xF4 a && byte_in 0x80 0x8F b).

Fixpoint utf8_valid (s : string) : bool :=
  match s with
  | EmptyString => true
  | String a r1 =>
      if byte_in 0x00 0x7F a then utf8_valid r1
      else
        match r1 with
        | EmptyString => false
        | String b r2 =>
            if byte_in 0xC2 0xDF a then continuation b && utf8_valid r2
            else
              match r2 with
              | EmptyString => false
              | String c r3 =>
                  if lead3 a b then continuation c && utf8_valid r3
                  else
                    match r3 with
                    | EmptyString => false
                    | String d r4 =>
                        lead4 a b && continuation c && continuation d
                        && utf8_valid r4
                    end
              end
        end
  end.

(** [str(data, 'utf-8')] *)
Definition str_utf8 (data : string) : M string :=
  if utf8_valid data then ret data else raise UnicodeDecodeError.

Section Executor.

Context `{Platform}.

(** [tempfile.mkstemp()]: raises [OSError] when the platform says so;
    otherwise creates an empty file under a new name and returns a new
    open descriptor with the path. *)
Definition mkstemp : M (Z * string) :=
  fun w =>
    match tmp_failure (tmp_seq w) with
    | Some message =>
        (inl (OSError message),
         {| fs := fs w; tmp_seq := S (tmp_seq w); nmap_runs := nmap_runs w;
            open_fds := open_fds w; events := events w |})
    | None =>
        (inr (3 + Z.of_nat (open_fds w), tmp_path (tmp_seq w)),
         {| fs := <[tmp_path (tmp_seq w) := EmptyString]> (fs w);
            tmp_seq := S (tmp_seq w);
            nmap_runs := nmap_runs w;
            open_fds := S (open_fds w);
            events := events w |})
    end.

(** [subprocess.run(args=..., check=False)]: raises when the engine cannot
    be started; otherwise the engine runs to its end. *)
Definition subprocess_run (args : list string) : M CompletedProcess :=
  fun w =>
    match engine (nmap_runs w) args with
    | inl e =>
        (inl (spawn_exn e),
         {| fs := fs w; tmp_seq := tmp_seq w; nmap_runs := S (nmap_runs w);
            open_fds := open_fds w; events := events w |})
    | inr proc =>
        (inr proc,
         {| fs := write_files (files_written proc) (fs w);
            tmp_seq := tmp_seq w;
            nmap_runs := S (nmap_runs w);
            open_fds := open_fds w;
            events := events w ++ [Exec args (returncode proc)] |})
    end.

(** [with open(path, 'r') as f: f.read()]: [open] may raise; otherwise
    the bytes of the file are decoded as text, and the descriptor of the
    [with] block is closed again whether the reading raised or not. *)
Definition read_file (path : string) : M string :=
  fun w =>
    match open_failure path with
    | Some message => (inl (OSError message), w)
    | None =>
        match fs w !! path with
        | None => (inl (OSError "No such file or directory"), w)
        | Some data =>
            match text_of data with
            | Some text => (inr text, w)
            | None => (inl UnicodeDecodeError, w)
            end
        end
    end.

(** [os.remove(path)] *)
Definition os_remove (path : string) : M unit :=
  fun w =>
    match remove_failure path with
    | Some message => (inl (OSError message), w)
    | None =>
        match fs w !! path with
        | None => (inl (OSError "No such file or directory"), w)
        | Some _ =>
            (inr tt,
             {| fs := delete path (fs w); tmp_seq := tmp_seq w;
                nmap_runs := nmap_runs w; open_fds := open_fds w;
                events := events w |})
        end
    end.

(** Modelled from the spec: the method [nmap_scan.parse_nmap_xml(xml_output)]
    of [ndr.NmapScan]. It fills in the discovered hosts, or fails when the
    document cannot be interpreted, and leaves category and target alone. *)
Definition parse_into (nmap_scan : NmapScan) (xml_output : string) : M NmapScan :=
  match parser xml_output with
  | inl message => raise (ParseError message)
  | inr found =>
      ret {| scan_type := scan_type nmap_scan;
             scan_target := scan_target nmap_scan;
             hosts := found |}
  end.

Definition run_scan (type : NmapScanTypes) (options : string)
           (target : option ScanTarget) : M NmapScan :=
  bind mkstemp (fun xml_logfile =>
  bind (subprocess_run (nmap_cmd options (snd xml_logfile) target)) (fun nmap_proc =>
  if negb (returncode nmap_proc =? 0)
  then
    bind (str_utf8 (stderr nmap_proc)) (fun message =>
    raise (NmapFailure (returncode nmap_proc) message))
  else
    bind (read_file (snd xml_logfile)) (fun xml_output =>
    bind (os_remove (snd xml_logfile)) (fun _ =>
    bind (parse_into NmapScan_new xml_output) (fun nmap_scan =>
    let nmap_scan :=
      {| scan_type := Some type;
         scan_target := scan_target nmap_scan;
         hosts := hosts nmap_scan |} in
    match target with
    | Some t =>
        let target_net := ip_network_of_compressed t in
        ret {| scan_type := scan_type nmap_scan;
               scan_target := Some (net_compressed target_net);
               hosts := hosts nmap_scan |}
    | None => ret nmap_scan
    end))))).

(** The command line the call hands to [subprocess.run], the bytes the
    temporary file holds once the engine has ended, and the world the
    engine leaves. *)
Definition issued_command (options : string) (target : option ScanTarget) (w : World)
  : list string :=
  nmap_cmd options (tmp_path (tmp_seq w)) target.

Definition started (options : string) (target : option ScanTarget) (w : World)
  : SpawnError + CompletedProcess :=
  engine (nmap_runs w) (issued_command options target w).

Definition files_after (proc : CompletedProcess) (w : World) : gmap string string :=
  write_files (files_written proc) (<[tmp_path (tmp_seq w) := EmptyString]> (fs w)).

Definition document (proc : CompletedProcess) (w : World) : string :=
  default EmptyString
    (last_written (tmp_path (tmp_seq w)) (files_written proc)).

(** How reading the temporary file back ends, and whether it can then be
    removed. *)
Definition read_back (proc : CompletedProcess) (w : World) : exn + string :=
  match open_failure (tmp_path (tmp_seq w)) with
  | Some message => inl (OSError message)
  | None =>
      match text_of (document proc w) with
      | Some text => inr text
      | None => inl UnicodeDecodeError
      end
  end.

Definition removal (w : World) : option string :=
  remove_failure (tmp_path (tmp_seq w)).

(** The worlds [run_scan] can end in: [mkstemp] raised; the engine could
    not be started; the engine ended and the temporary file is still
    there; the temporary file has been read and removed. *)
Definition world_without_tmp (w : World) : World :=
  {| fs := fs w; tmp_seq := S (tmp_seq w); nmap_runs := nmap_runs w;
     open_fds := open_fds w; events := events w |}.

Definition world_not_started (w : World) : World :=
  {| fs := <[tmp_path (tmp_seq w) := EmptyString]> (fs w);
     tmp_seq := S (tmp_seq w);
     nmap_runs := S (nmap_runs w);
     open_fds := S (open_fds w);
     events := events w |}.

Definition world_with_tmp (options : string) (target : option ScanTarget)
           (proc : CompletedProcess) (w : World) : World :=
  {| fs := files_after proc w;
     tmp_seq := S (tmp_seq w);
     nmap_runs := S (nmap_runs w);
     open_fds := S (open_fds w);
     events := events w ++ [Exec (issued_command options target w) (returncode proc)] |}.

Definition world_after_remove (options : string) (target : option ScanTarget)
           (proc : CompletedProcess) (w : World) : World :=
  {| fs := delete (tmp_path (tmp_seq w)) (files_after proc w);
     tmp_seq := S (tmp_seq w);
     nmap_runs := S (nmap_runs w);
     open_fds := S (open_fds w);
     events := events w ++ [Exec (issued_command options target w) (returncode proc)] |}.

End Executor.

(** A platform for worked scenarios: [mkstemp] fails or not, the engine
    cannot be started or ends with a status, bytes on standard error and a
    document written to its [-oX] file; files can be opened and removed,
    the locale is UTF-8 and the parser knows the documents of the worked
    sweep. *)
Definition scenario (tmp : option string) (run : SpawnError + Z * string * string)
  : Platform :=
  {| tmp_failure := fun _ => tmp;
     engine := fun _ args =>
       match run with
       | inl e => inl e
       | inr (status, err, xml) =>
           inr (mkCompletedProcess status err [(xml_sink args, xml)])
       end;
     open_failure := fun _ => None;
     text_of := fun data => if utf8_valid data then Some data else None;
     remove_failure := fun _ => None;
     parser := table_parser known_documents |}.

(** The same platform with the limit of open descriptors reached when the
    temporary file is opened for reading. *)
Definition scenario_no_descriptor (run : SpawnError + Z * string * string) : Platform :=
  {| tmp_failure := fun _ => None;
     engine := @engine (scenario None run);
     open_failure := fun _ => Some "Too many open files"%string;
     text_of := @text_of (scenario None run);
     remove_failure := fun _ => None;
     parser := table_parser known_documents |}.

Definition empty_world : World :=
  {| fs := ∅; tmp_seq := 0; nmap_runs := 0; open_fds := 0; events := [] |}.

(** One byte that is not UTF-8. *)
Definition not_utf8 : string := String (ascii_of_N 255) EmptyString.

End Fallible.

(** The platform on which nothing fails but the scan itself: the calls of
    the collaborators of the sweep, with files read as they are. *)
Definition platform_of_collaborators (C : Collaborators) : Fallible.Platform :=
  {| Fallible.tmp_failure := fun _ => None;
     Fallible.engine := fun n args =>
       inr (Fallible.mkCompletedProcess (returncode (nmap n args))
                                        (stderr (nmap n args))
                                        (files_written (nmap n args)));
     Fallible.open_failure := fun _ => None;
     Fallible.text_of := fun data => Some data;
     Fallible.remove_failure := fun _ => None;
     Fallible.parser := parse_nmap_xml |}.

(** A world of the sweep seen with its open descriptors. *)
Definition with_descriptors (fds : nat) (w : World) : Fallible.World :=
  {| Fallible.fs := fs w; Fallible.tmp_seq := tmp_seq w;
     Fallible.nmap_runs := nmap_runs w; Fallible.open_fds := fds;
     Fallible.events := events w |}.

(** The outcomes the two models of [run_scan] share. *)
Inductive same_outcome {A : Type} : exn + A -> Fallible.exn + A -> Prop :=
| same_failure code message :
    same_outcome (inl (NmapFailure code message))
                 (inl (Fallible.NmapFailure code message))
| same_parse_error message :
    same_outcome (inl (ParseError message)) (inl (Fallible.ParseError message))
| same_result a : same_outcome (inr a) (inr a).


(** * Properties *)

(** ** Text rendering on known values *)

Example ex_split : pystr.split " " "-6 -R  -sn" = ["-6"%string; "-R"%string; EmptyString; "-sn"%string].
Proof. reflexivity. Qed.
Example ex_v4 : compressed (IPv4Address 0xC0A80105) = "192.168.1.5".
Proof. vm_compute. reflexivity. Qed.
Example ex_v6a : compressed (IPv6Address 0xfe800000000000000000000000000001) = "fe80::1".
Proof. vm_compute. reflexivity. Qed.
Example ex_v6b : compressed (IPv6Address 0) = "::".
Proof. vm_compute. reflexivity. Qed.
Example ex_v6c : compressed (IPv6Address 0x20010db8000000010001000000000001) = "2001:db8:0:1:1::1".
Proof. vm_compute. reflexivity. Qed.
Example ex_v6d : compressed (IPv6Address 0x20010db8000000000001000000000001) = "2001:db8::1:0:0:1".
Proof. vm_compute. reflexivity. Qed.
Example ex_v6e : compressed (IPv6Address 0x00010000000000000000000000000000) = "1::".
Proof. vm_compute. reflexivity. Qed.
Example ex_v6f : net_compressed (mkNetwork (IPv6Address 0x20010db8000000000000000000000000) 32) = "2001:db8::/32".
Proof. vm_compute. reflexivity. Qed.
Example ex_ll : is_link_local (IPv6Address 0xfe800000000000000000000000000001) = true
  /\ is_link_local (IPv4Address 0xA9FE0101) = true /\ is_link_local (IPv4Address 0xC0A80105) = false.
Proof. vm_compute. auto. Qed.


(** ** Facts about the string helpers *)

Section StringFacts.

Lemma append_nil (b : string) : EmptyString +:+ b = b.
Proof. reflexivity. Qed.

Lemma append_cons (x : ascii) (a b : string) : String x a +:+ b = String x (a +:+ b).
Proof. reflexivity. Qed.

Lemma chars_app (a b : string) :
  pystr.chars (a +:+ b) = pystr.chars a ++ pystr.chars b.
Proof.
  induction a as [|c a IH]; [reflexivity|].
  rewrite append_cons. simpl. now rewrite IH.
Qed.

Lemma split_nonempty (sep : ascii) (s : string) : pystr.split sep s <> [].
Proof.
  destruct s as [|c s]; simpl; [discriminate|].
  destruct (Ascii.eqb c sep); [discriminate|].
  destruct (pystr.split sep s); discriminate.
Qed.

(** Splitting commutes with gluing two strings by the separator. *)
Lemma split_app_sep (sep : ascii) (a b : string) :
  pystr.split sep (a +:+ String sep b) = pystr.split sep a ++ pystr.split sep b.
Proof.
  induction a as [|c a IH]; [rewrite append_nil | rewrite append_cons]; simpl.
  - now rewrite Ascii.eqb_refl.
  - destruct (Ascii.eqb c sep); [now rewrite IH|].
    rewrite IH. pose proof (split_nonempty sep a) as Hne.
    destruct (pystr.split sep a); [contradiction | reflexivity].
Qed.

Lemma split_no_sep (sep : ascii) (s : string) :
  ~ In sep (pystr.chars s) -> pystr.split sep s = [s].
Proof.
  induction s as [|c s IH]; simpl; intros Hnot; [reflexivity|].
  destruct (Ascii.eqb_spec c sep) as [->|Hne]; [exfalso; auto|].
  rewrite IH by auto. reflexivity.
Qed.

Lemma startswith_iff (p s : string) :
  pystr.startswith p s = true <-> exists rest : string, s = p +:+ rest.
Proof.
  revert s; induction p as [|a p IH]; intros s; simpl.
  - split; [intros _; now exists s | reflexivity].
  - destruct s as [|b s].
    + split; [discriminate | intros [rest Hrest]; discriminate].
    + rewrite andb_true_iff, IH. split.
      * intros [Hab [rest ->]]. apply Ascii.eqb_eq in Hab as ->. now exists rest.
      * intros [rest Hrest]. rewrite append_cons in Hrest. injection Hrest as -> ->.
        split; [apply Ascii.eqb_refl | now exists rest].
Qed.

(** The [in] test of Python on strings is the substring relation. *)
Lemma contains_iff (needle hay : string) :
  pystr.contains needle hay = true <-> substring_of needle hay.
Proof.
  unfold substring_of; induction hay as [|c hay IH].
  - cbn [pystr.contains]. rewrite orb_false_r, startswith_iff. split.
    + intros [rest ->]. now exists EmptyString, rest.
    + intros [[|b before] [after Heq]]; [now exists after | discriminate].
  - cbn [pystr.contains]. rewrite orb_true_iff, startswith_iff, IH. split.
    + intros [[rest ->] | [before [after ->]]].
      * now exists EmptyString, rest.
      * now exists (String c before), after.
    + intros [[|b before] [after Heq]].
      * left. now exists after.
      * right. injection Heq as -> ->. now exists before, after.
Qed.

End StringFacts.

(** ** Configuration construction *)

Section Configuration.

Lemma append_networks_app (addrs : list InterfaceAddress) (nets : list IPNetwork) :
  append_networks addrs nets = nets ++ map ip_network addrs.
Proof.
  unfold append_networks. revert nets.
  induction addrs as [|a addrs IH]; intros nets; simpl.
  - now rewrite app_nil_r.
  - rewrite IH, <- app_assoc. reflexivity.
Qed.

Lemma select_interfaces_spec (interfaces : list Interface) (self : NmapConfig) :
  select_interfaces interfaces self =
  {| scan_interfaces :=
       scan_interfaces self ++ map name (List.filter lan_like interfaces);
     networks_to_scan :=
       networks_to_scan self ++ flat_map bound_networks (List.filter lan_like interfaces);
     blacklisted_hosts := blacklisted_hosts self |}.
Proof.
  revert self; induction interfaces as [|i interfaces IH]; intros self.
  - simpl. rewrite !app_nil_r. now destruct self.
  - cbn [select_interfaces List.filter].
    change (pystr.contains "lan" (name i)) with (lan_like i).
    destruct (lan_like i); cbn [negb].
    + rewrite IH. cbn [scan_interfaces networks_to_scan blacklisted_hosts map flat_map].
      rewrite append_networks_app. unfold bound_networks at 2.
      now rewrite <- !app_assoc.
    + apply IH.
Qed.

(** C10. [NmapConfig.__init__] keeps, in order, exactly the interfaces
    whose name contains the substring "lan": [scan_interfaces] is the list
    of their names, [networks_to_scan] the concatenation of the networks
    bound to them, and an interface reported by the provider has its name
    selected if and only if "lan" occurs somewhere in that name. An
    interface called "wlan0" is therefore selected. *)
Theorem config_selects_lan_substring (interfaces : list Interface) :
  scan_interfaces (NmapConfig_init interfaces)
    = map name (List.filter lan_like interfaces)
  /\ networks_to_scan (NmapConfig_init interfaces)
    = flat_map bound_networks (List.filter lan_like interfaces)
  /\ (forall i : Interface, In i interfaces ->
        (In (name i) (scan_interfaces (NmapConfig_init interfaces))
         <-> substring_of "lan" (name i))
        /\ (substring_of "lan" (name i) ->
              forall n, In n (bound_networks i) ->
                        In n (networks_to_scan (NmapConfig_init interfaces))))
  /\ (forall addrs, In (mkInterface "wlan0" addrs) interfaces ->
        In "wlan0"%string (scan_interfaces (NmapConfig_init interfaces))).
Proof.
  unfold NmapConfig_init. rewrite select_interfaces_spec.
  cbn [scan_interfaces networks_to_scan app].
  assert (Hsel : forall i, In i interfaces ->
            (In (name i) (map name (List.filter lan_like interfaces))
             <-> substring_of "lan" (name i))).
  { intros i Hi. rewrite <- contains_iff. split.
    - intros Hin. apply in_map_iff in Hin as [j [Hname Hj]].
      apply filter_In in Hj as [_ Hj]. unfold lan_like in Hj. now rewrite <- Hname.
    - intros Hlan. apply in_map. apply filter_In. now split. }
  repeat split.
  - now apply Hsel.
  - now apply Hsel.
  - intros Hlan n Hn. apply in_flat_map. exists i. split; [|exact Hn].
    apply filter_In. split; [assumption|]. now apply contains_iff.
  - intros addrs Hin. apply (Hsel _ Hin). now exists "w"%string, "0"%string.
Qed.

(** On the interfaces of the worked sweep, extended by a wireless one:
    [eth0] is dropped, [wlan0] and [lan0] are kept. *)
Lemma config_selects_lan_substring_witness :
  In (mkInterface "wlan0" []) (mkInterface "wlan0" [] :: lan_interfaces)
  /\ (In "wlan0"%string
        (scan_interfaces (NmapConfig_init (mkInterface "wlan0" [] :: lan_interfaces)))
      <-> substring_of "lan" "wlan0")
  /\ In "wlan0"%string
       (scan_interfaces (NmapConfig_init (mkInterface "wlan0" [] :: lan_interfaces))).
Proof.
  assert (Hin : In (mkInterface "wlan0" []) (mkInterface "wlan0" [] :: lan_interfaces))
    by (simpl; left; reflexivity).
  destruct (config_selects_lan_substring (mkInterface "wlan0" [] :: lan_interfaces))
    as (_ & _ & Hiff & Hwlan).
  split; [exact Hin|]. split.
  - exact (proj1 (Hiff _ Hin)).
  - exact (Hwlan _ Hin).
Defined.

Example config_of_worked_sweep :
  NmapConfig_init lan_interfaces
  = {| scan_interfaces := ["lan0"%string];
       networks_to_scan := [net_192_168_1_0_24; net_192_168_1_0_24];
       blacklisted_hosts := [] |}.
Proof. reflexivity. Qed.

End Configuration.

(** ** The scan executor [run_scan] *)

Section Executor.

Context `{Collaborators}.

Lemma write_files_keeps (files : list (string * string)) (m : gmap string string)
      (path : string) :
  is_Some (m !! path) -> is_Some (write_files files m !! path).
Proof.
  unfold write_files. revert m.
  induction files as [|[p c] files IH]; intros m Hm; simpl; [exact Hm|].
  apply IH. rewrite lookup_insert. case_decide; [eauto | exact Hm].
Qed.

Lemma tmp_file_present (options : string) (target : option ScanTarget) (w : World) :
  files_after_engine options target w !! tmp_path (tmp_seq w)
  = Some (xml_document options target w).
Proof.
  unfold xml_document.
  destruct (write_files_keeps (files_written (engine_run options target w))
              (<[tmp_path (tmp_seq w) := EmptyString]> (fs w)) (tmp_path (tmp_seq w)))
    as [content Hcontent].
  - rewrite lookup_insert_eq. eauto.
  - unfold files_after_engine. now rewrite Hcontent.
Qed.

(** [run_scan] in one step: the engine runs on the issued command; a
    nonzero status raises [NmapFailure] with the temporary file still in
    place; otherwise the file is read and removed and the parser decides
    between [ParseError] and the scan. *)
Lemma run_scan_eq (type : NmapScanTypes) (options : string)
      (target : option ScanTarget) (w : World) :
  run_scan type options target w =
  if returncode (engine_run options target w) =? 0 then
    match parse_nmap_xml (xml_document options target w) with
    | inl msg => (inl (ParseError msg), world_after_remove options target w)
    | inr found =>
        (inr {| scan_type := Some type;
                scan_target :=
                  option_map (fun t => net_compressed (ip_network_of_compressed t)) target;
                hosts := found |},
         world_after_remove options target w)
    end
  else (inl (NmapFailure (returncode (engine_run options target w))
                         (stderr (engine_run options target w))),
        world_at_failure options target w).
Proof.
  unfold run_scan, bind, mkstemp, subprocess_run. cbn [snd fs tmp_seq nmap_runs events].
  change (nmap (nmap_runs w) (nmap_cmd options (tmp_path (tmp_seq w)) target))
    with (engine_run options target w).
  change (write_files (files_written (engine_run options target w))
            (<[tmp_path (tmp_seq w) := EmptyString]> (fs w)))
    with (files_after_engine options target w).
  destruct (returncode (engine_run options target w) =? 0); cbn [negb].
  - unfold read_file, os_remove. cbn [fs tmp_seq nmap_runs events].
    rewrite tmp_file_present. cbn [fs tmp_seq nmap_runs events].
    rewrite tmp_file_present. unfold parse_into, raise, ret.
    destruct (parse_nmap_xml (xml_document options target w)) as [msg|found].
    + reflexivity.
    + destruct target; reflexivity.
  - reflexivity.
Qed.

Lemma cidr_form_eq (t : ScanTarget) :
  net_compressed (ip_network_of_compressed t) = cidr_form t.
Proof. destruct t as [[ip|ip]|n]; reflexivity. Qed.

Lemma commands_app (a b : list Event) : commands (a ++ b) = commands a ++ commands b.
Proof.
  induction a as [|[args status|scan|scan] a IH]; simpl; [reflexivity|..];
    now rewrite IH.
Qed.

Lemma queued_app (a b : list Event) : queued (a ++ b) = queued a ++ queued b.
Proof.
  induction a as [|[args status|scan|scan] a IH]; simpl; [reflexivity|..];
    now rewrite IH.
Qed.

(** Every call of [run_scan] runs the engine exactly once, on the issued
    command, whatever the outcome. *)
Lemma run_scan_events (type : NmapScanTypes) (options : string)
      (target : option ScanTarget) (w : World) :
  events (snd (run_scan type options target w)) = events_after_engine options target w.
Proof.
  rewrite run_scan_eq.
  destruct (returncode (engine_run options target w) =? 0); [|reflexivity].
  destruct (parse_nmap_xml (xml_document options target w)); reflexivity.
Qed.

Lemma run_scan_commands (type : NmapScanTypes) (options : string)
      (target : option ScanTarget) (w : World) :
  commands (events (snd (run_scan type options target w)))
  = commands (events w) ++ [issued_command options target w].
Proof. rewrite run_scan_events. unfold events_after_engine. now rewrite commands_app. Qed.

(** Whether the temporary file is still there when [run_scan] is done:
    it has been removed exactly when the engine exited with status zero,
    and is left behind when [NmapFailure] is raised. *)
Lemma tmp_file_after_run_scan (type : NmapScanTypes) (options : string)
      (target : option ScanTarget) (w : World) :
  fs (snd (run_scan type options target w)) !! tmp_path (tmp_seq w)
  = if returncode (engine_run options target w) =? 0
    then None
    else Some (xml_document options target w).
Proof.
  rewrite run_scan_eq.
  destruct (returncode (engine_run options target w) =? 0).
  - destruct (parse_nmap_xml (xml_document options target w));
      cbn [snd fs world_after_remove]; apply lookup_delete_eq.
  - cbn [snd fs world_at_failure]. apply tmp_file_present.
Qed.

(** C3. A scan returned by [run_scan] has the category it was asked for,
    and its target is absent exactly when no target was supplied;
    otherwise it is the CIDR text of the supplied target, a single address
    being written as the /32 or /128 network of that host. *)
Theorem scan_target_is_cidr_of_target (type : NmapScanTypes) (options : string)
        (target : option ScanTarget) (w w' : World) (scan : NmapScan) :
  run_scan type options target w = (inr scan, w') ->
  scan_target scan = option_map cidr_form target
  /\ (scan_target scan = None <-> target = None)
  /\ scan_type scan = Some type.
Proof.
  rewrite run_scan_eq.
  destruct (returncode (engine_run options target w) =? 0); [|discriminate].
  destruct (parse_nmap_xml (xml_document options target w)); [discriminate|].
  intros Heq. injection Heq as <- _. cbn [scan_target scan_type].
  destruct target as [t|]; cbn [option_map].
  - rewrite cidr_form_eq. repeat split; discriminate.
  - repeat split; reflexivity.
Qed.

End Executor.

(** ** Command construction *)

Section CommandBuilder.

Context `{Collaborators}.

Lemma append_inv_head (a b c : string) : a +:+ b = a +:+ c -> b = c.
Proof.
  induction a as [|x a IH]; [auto|].
  rewrite !append_cons. intros Heq. injection Heq as Heq. auto.
Qed.

(** Temporary file names are never handed out twice. *)
Lemma tmp_path_inj (m n : nat) : tmp_path m = tmp_path n -> m = n.
Proof. unfold tmp_path. intros Heq. apply append_inv_head in Heq. now apply (inj pretty). Qed.

Lemma tmp_path_not_flag (n : nat) (flag : string) :
  pystr.startswith "-" flag = true -> tmp_path n <> flag.
Proof.
  unfold tmp_path. intros Hflag Heq. rewrite <- Heq in Hflag.
  rewrite append_cons in Hflag. discriminate Hflag.
Qed.

Lemma net_compressed_has_slash (n : IPNetwork) :
  In "/"%char (pystr.chars (net_compressed n)).
Proof.
  unfold net_compressed. rewrite chars_app. apply in_or_app. right.
  rewrite append_cons. simpl. now left.
Qed.

(** The shape of every command line: the program name, the fields of the
    option string, the output flag with the temporary path, and the text
    of the target when there is one. *)
Lemma issued_command_shape (options : string) (target : option ScanTarget) (w : World) :
  issued_command options target w
  = ("nmap"%string :: pystr.split " " options ++ ["-oX"%string])
      ++ tmp_path (tmp_seq w)
      :: match target with Some t => [target_compressed t] | None => [] end.
Proof.
  unfold issued_command, nmap_cmd. destruct target; cbn [app];
    rewrite <- ?app_assoc; reflexivity.
Qed.

(** C9 (as amended). For a fixed category, option string and target, the
    argument list [run_scan] hands to the engine is determined up to the
    path of the temporary output file that follows [-oX]: two invocations
    build the same prefix and the same suffix around their own temporary
    path, and the two lists are equal exactly when the two invocations were
    handed the same temporary name. *)
Theorem command_deterministic_up_to_tmp_path (type : NmapScanTypes) (options : string)
        (target : option ScanTarget) (w1 w2 : World) :
  let before := "nmap"%string :: pystr.split " " options ++ ["-oX"%string] in
  let after := match target with Some t => [target_compressed t] | None => [] end in
  commands (events (snd (run_scan type options target w1)))
    = commands (events w1) ++ [before ++ tmp_path (tmp_seq w1) :: after]
  /\ commands (events (snd (run_scan type options target w2)))
    = commands (events w2) ++ [before ++ tmp_path (tmp_seq w2) :: after]
  /\ (before ++ tmp_path (tmp_seq w1) :: after = before ++ tmp_path (tmp_seq w2) :: after
      <-> tmp_seq w1 = tmp_seq w2).
Proof.
  cbn zeta. rewrite !run_scan_commands, !issued_command_shape.
  split; [reflexivity|]. split; [reflexivity|]. split.
  - intros Heq. apply app_inv_head in Heq. apply tmp_path_inj. congruence.
  - intros ->. reflexivity.
Qed.

(** The command line of a protocol scan. *)
Lemma protocol_scan_command (network : IPNetwork) (w : World) :
  commands (events (snd (protocol_scan network w)))
  = commands (events w)
    ++ [["nmap"%string;
         if net_version network =? 6 then "-6-sO"%string else "-sO"%string;
         "-oX"%string; tmp_path (tmp_seq w); net_compressed network]].
Proof.
  unfold protocol_scan. rewrite run_scan_commands, issued_command_shape.
  unfold protocol_scan_flags. destruct (net_version network =? 6); reflexivity.
Qed.

(** No protocol scan, of either family, passes ["-6"] as an argument:
    for an IPv6 network the flag is glued to the protocol flag in the
    single argument ["-6-sO"]. *)
Lemma protocol_scan_never_passes_ipv6_flag (network : IPNetwork) (w : World) :
  ~ In "-6"%string
      (issued_command (protocol_scan_flags network) (Some (Network network)) w).
Proof.
  rewrite issued_command_shape. unfold protocol_scan_flags.
  assert (Hpath : tmp_path (tmp_seq w) <> "-6"%string)
    by (now apply tmp_path_not_flag).
  assert (Hnet : net_compressed network <> "-6"%string).
  { intros Heq. pose proof (net_compressed_has_slash network) as Hin.
    rewrite Heq in Hin. simpl in Hin. intuition discriminate. }
  destruct (net_version network =? 6); simpl; intuition (try discriminate; congruence).
Qed.

Lemma split_glued (a b : string) :
  pystr.split " " (a +:+ " " +:+ b) = pystr.split " " a ++ pystr.split " " b.
Proof. apply split_app_sep. Qed.

(** The option string of an in-depth scan of a link-local address with an
    interface, cut into fields. *)
Lemma indepth_options_link_local (address : IPAddress) (interface : string) :
  is_link_local address = true ->
  exists options,
    indepth_options address (Some interface) = inr options
    /\ pystr.split " " options
       = ["-e"%string] ++ pystr.split " " interface
         ++ (if version address =? 6 then ["-6"%string] else [])
         ++ ["-sS"%string; "-A"%string; "-T4"%string].
Proof.
  intros Hll. unfold indepth_options. rewrite Hll. eexists. split; [reflexivity|].
  change ("-e " +:+ interface +:+ " " +:+ ?rest)
    with ("-e" +:+ " " +:+ (interface +:+ " " +:+ rest)).
  rewrite !split_glued. destruct (version address =? 6); reflexivity.
Qed.

(** C5 (as amended). For a link-local address, an in-depth scan requested
    without an interface fails with [TypeError] before anything is done:
    no temporary file, no engine run. With an interface the option string
    is built and the engine is run on a command line that starts with
    [nmap -e] followed by the fields of the interface name (the name
    itself when it has no space), then ["-6"] exactly when the address is
    an IPv6 address, then the scan flags, the output file and the
    address. *)
Theorem indepth_link_local_needs_interface (address : IPAddress) (interface : string)
        (w : World) :
  is_link_local address = true ->
  indepth_host_scan address None w = (inl TypeError, w)
  /\ commands (events (snd (indepth_host_scan address (Some interface) w)))
     = commands (events w)
       ++ [["nmap"%string; "-e"%string] ++ pystr.split " " interface
           ++ (if version address =? 6 then ["-6"%string] else [])
           ++ ["-sS"%string; "-A"%string; "-T4"%string; "-oX"%string;
               tmp_path (tmp_seq w); compressed address]]
  /\ (~ In " "%char (pystr.chars interface) -> pystr.split " " interface = [interface]).
Proof.
  intros Hll. split; [|split].
  - unfold indepth_host_scan, indepth_options. now rewrite Hll.
  - destruct (indepth_options_link_local address interface Hll) as (options & Hopt & Hsplit).
    unfold indepth_host_scan. rewrite Hopt, run_scan_commands, issued_command_shape, Hsplit.
    f_equal. cbn [app target_compressed]. rewrite <- !app_assoc. reflexivity.
  - apply split_no_sep.
Qed.

End CommandBuilder.

(** ** The phase orchestrator [run_network_scans] *)

Section Orchestrator.

Context `{Collaborators}.

(** A scan followed by [process_and_send_scan], in one step. *)
Lemma scan_process_eq {B : Type} (type : NmapScanTypes) (options : string)
      (target : option ScanTarget) (interface : option string)
      (K : list (IPAddress * option string) -> M B) (w : World) :
  (scan <- run_scan type options target ;;
   found <- process_and_send_scan scan interface ;;
   K found) w
  = if returncode (engine_run options target w) =? 0 then
      match parse_nmap_xml (xml_document options target w) with
      | inl msg => (inl (ParseError msg), world_after_remove options target w)
      | inr found =>
          K (tagged interface (returned_scan type target found))
            (world_after_queue type options target found w)
      end
    else (inl (NmapFailure (returncode (engine_run options target w))
                           (stderr (engine_run options target w))),
          world_at_failure options target w).
Proof.
  unfold bind at 1. rewrite run_scan_eq.
  destruct (returncode (engine_run options target w) =? 0); [|reflexivity].
  destruct (parse_nmap_xml (xml_document options target w)); reflexivity.
Qed.











Lemma indepth_options_error (address : IPAddress) (interface : option string) (e : exn) :
  indepth_options address interface = inl e -> e = TypeError.
Proof.
  unfold indepth_options. destruct (is_link_local address); [|discriminate].
  destruct interface; [discriminate|]. congruence.
Qed.





Lemma queued_after_queue (type : NmapScanTypes) (options : string)
      (target : option ScanTarget) (found : list IPAddress) (w : World) :
  queued (events (world_after_queue type options target found w))
  = queued (events w) ++ [returned_scan type target found].
Proof.
  cbn [events world_after_queue]. unfold events_after_engine.
  rewrite !queued_app. cbn [queued]. now rewrite !app_nil_r.
Qed.

Lemma commands_after_queue (type : NmapScanTypes) (options : string)
      (target : option ScanTarget) (found : list IPAddress) (w : World) :
  commands (events (world_after_queue type options target found w))
  = commands (events w) ++ [issued_command options target w].
Proof.
  cbn [events world_after_queue]. unfold events_after_engine.
  rewrite !commands_app. cbn [commands]. now rewrite !app_nil_r.
Qed.

(** A scan-and-process step that did not raise: the engine exited with
    status zero, the parser found some hosts, and the rest ran from the
    world in which the scan had been queued. *)
Lemma scan_process_returns {B : Type} (type : NmapScanTypes) (options : string)
      (target : option ScanTarget) (interface : option string)
      (K : list (IPAddress * option string) -> M B) (w w' : World) (b : B) :
  (scan <- run_scan type options target ;;
   found <- process_and_send_scan scan interface ;;
   K found) w = (inr b, w') ->
  exists found : list IPAddress,
    K (tagged interface (returned_scan type target found))
      (world_after_queue type options target found w) = (inr b, w').
Proof.
  rewrite scan_process_eq.
  destruct (returncode (engine_run options target w) =? 0); [|discriminate].
  destruct (parse_nmap_xml (xml_document options target w)) as [msg|found];
    [discriminate | eauto].
Qed.

Lemma link_local_discovery_frontier (interfaces : list string)
      (discovered_hosts frontier : list (IPAddress * option string)) (w w' : World) :
  link_local_discovery interfaces discovered_hosts w = (inr frontier, w') ->
  exists scans : list NmapScan,
    queued (events w') = queued (events w) ++ scans
    /\ Forall2 link_local_scan_of scans interfaces
    /\ frontier = discovered_hosts
                  ++ concat (zip_with (fun scan interface => tagged (Some interface) scan)
                                      scans interfaces).
Proof.
  revert discovered_hosts w.
  induction interfaces as [|i interfaces IH]; intros acc w Hrun.
  - injection Hrun as <- <-. exists []. rewrite !app_nil_r. repeat split. constructor.
  - cbn [link_local_discovery] in Hrun. unfold v6_link_local_scan in Hrun.
    apply scan_process_returns in Hrun as (found & Hrun).
    apply IH in Hrun as (scans & Hq & Hscans & ->).
    exists (returned_scan IPV6_LINK_LOCAL_DISCOVERY None found :: scans).
    rewrite Hq, queued_after_queue, <- !app_assoc. repeat split.
    constructor; [now split | assumption].
Qed.

Lemma network_discovery_frontier (networks : list IPNetwork)
      (discovered_hosts frontier : list (IPAddress * option string)) (w w' : World) :
  network_discovery networks discovered_hosts w = (inr frontier, w') ->
  exists scans : list NmapScan,
    queued (events w') = queued (events w) ++ scans
    /\ Forall2 discovery_scan_of scans networks
    /\ frontier = discovered_hosts ++ concat (map (tagged None) scans).
Proof.
  revert discovered_hosts w.
  induction networks as [|n networks IH]; intros acc w Hrun.
  - injection Hrun as <- <-. exists []. rewrite !app_nil_r. repeat split. constructor.
  - cbn [network_discovery] in Hrun.
    unfold arp_host_discovery_scan, nd_host_discovery_scan in Hrun.
    destruct (net_version n =? 4) eqn:Hversion;
      apply scan_process_returns in Hrun as (found & Hrun);
      apply IH in Hrun as (scans & Hq & Hscans & ->);
      eexists (returned_scan _ (Some (Network n)) found :: scans);
      rewrite Hq, queued_after_queue, <- !app_assoc; repeat split;
      (constructor; [|assumption]); unfold discovery_scan_of; rewrite Hversion;
      now split.
Qed.

Lemma protocol_discovery_queue (networks : list IPNetwork) (w w' : World) :
  protocol_discovery networks w = (inr tt, w') ->
  exists scans : list NmapScan,
    queued (events w') = queued (events w) ++ scans
    /\ Forall2 protocol_scan_of scans networks.
Proof.
  revert w. induction networks as [|n networks IH]; intros w Hrun.
  - injection Hrun as <-. exists []. rewrite !app_nil_r. split; [reflexivity | constructor].
  - cbn [protocol_discovery] in Hrun. unfold protocol_scan in Hrun.
    apply scan_process_returns in Hrun as (found & Hrun).
    apply IH in Hrun as (scans & Hq & Hscans).
    eexists (returned_scan _ (Some (Network n)) found :: scans).
    rewrite Hq, queued_after_queue, <- !app_assoc. split; [reflexivity|].
    constructor; [now split | assumption].
Qed.

Lemma host_scanning_commands (frontier : list (IPAddress * option string))
      (w w' : World) :
  host_scanning frontier w = (inr tt, w') ->
  exists cmds : list (list string),
    commands (events w') = commands (events w) ++ cmds
    /\ Forall2 indepth_command_of cmds frontier.
Proof.
  revert w. induction frontier as [|[address interface] frontier IH]; intros w Hrun.
  - injection Hrun as <-. exists []. rewrite !app_nil_r. split; [reflexivity | constructor].
  - cbn [host_scanning fst snd] in Hrun. unfold indepth_host_scan in Hrun.
    destruct (indepth_options address interface) as [e|options] eqn:Hopt;
      [discriminate|].
    apply scan_process_returns in Hrun as (found & Hrun).
    apply IH in Hrun as (cmds & Hc & Hcmds).
    exists (issued_command options (Some (Address address)) w :: cmds).
    rewrite Hc, commands_after_queue, <- !app_assoc. split; [reflexivity|].
    constructor; [|assumption]. exists options, (tmp_path (tmp_seq w)). now split.
Qed.

(** C6. When phases 1 to 3 have run, the frontier handed to phase 4 is the
    concatenation, in the order of the scans, of the hosts of the
    link-local scans (one per scan interface, each host tagged with the
    interface of its scan) and of the hosts of the network discovery scans
    (one per network, untagged); the protocol scans of phase 3 are queued
    but add nothing. Nothing is removed from it: phase 4 is [host_scanning]
    on exactly this list, and when it ends normally it has run one
    in-depth command per entry, in order, so an address listed twice is
    scanned twice. *)
Theorem frontier_is_concatenation_of_discoveries (nmap_config : NmapConfig)
        (frontier : list (IPAddress * option string)) (w w1 : World) :
  discovery_phases nmap_config w = (inr frontier, w1) ->
  run_network_scans nmap_config w = host_scanning frontier w1
  /\ (exists link_local discovery protocol : list NmapScan,
         queued (events w1) = queued (events w) ++ link_local ++ discovery ++ protocol
         /\ Forall2 link_local_scan_of link_local (scan_interfaces nmap_config)
         /\ Forall2 discovery_scan_of discovery (networks_to_scan nmap_config)
         /\ Forall2 protocol_scan_of protocol (networks_to_scan nmap_config)
         /\ frontier = frontier_of link_local (scan_interfaces nmap_config) discovery)
  /\ (forall w2 : World,
         host_scanning frontier w1 = (inr tt, w2) ->
         exists cmds : list (list string),
           commands (events w2) = commands (events w1) ++ cmds
           /\ Forall2 indepth_command_of cmds frontier).
Proof.
  unfold discovery_phases, run_network_scans, bind.
  destruct (link_local_discovery (scan_interfaces nmap_config) [] w)
    as [[e|d1] wa] eqn:H1; [discriminate|].
  destruct (network_discovery (networks_to_scan nmap_config) d1 wa)
    as [[e|d2] wb] eqn:H2; [discriminate|].
  destruct (protocol_discovery (networks_to_scan nmap_config) wb)
    as [[e|[]] wc] eqn:H3; [discriminate|].
  intros Heq. injection Heq as <- <-.
  apply link_local_discovery_frontier in H1 as (ll & Hq1 & Hll & ->).
  apply network_discovery_frontier in H2 as (nd & Hq2 & Hnd & ->).
  apply protocol_discovery_queue in H3 as (pd & Hq3 & Hpd).
  split; [reflexivity|]. split.
  - exists ll, nd, pd. rewrite Hq3, Hq2, Hq1, <- !app_assoc. repeat split; assumption.
  - intros w2. apply host_scanning_commands.
Qed.

(** The sweep never reads [blacklisted_hosts]: two configurations that
    differ only there run the same sweep. *)
Lemma blacklist_is_never_consulted (nmap_config : NmapConfig)
      (blacklist : list IPAddress) :
  run_network_scans {| scan_interfaces := scan_interfaces nmap_config;
                       networks_to_scan := networks_to_scan nmap_config;
                       blacklisted_hosts := blacklist |}
  = run_network_scans nmap_config.
Proof. reflexivity. Qed.

End Orchestrator.

(** ** Worked scenarios *)

(** C1. With 192.168.1.5 in [blacklisted_hosts], the sweep still runs the
    in-depth scan of 192.168.1.5 (twice, once per discovery) and queues
    its result: phase 4 has no blacklist test. *)
Theorem blacklisted_host_is_scanned :
  In host_192_168_1_5 (blacklisted_hosts blacklisting_config)
  /\ fst (@run_network_scans sweep_collaborators blacklisting_config empty_world) = inr tt
  /\ commands (events (snd (@run_network_scans sweep_collaborators blacklisting_config
                              empty_world)))
     = [["nmap"; "-6"; "-R"; "-sn"; "-e"; "lan0"; "--script=targets-ipv6-multicast-*";
         "--script-args=newtargets"; "-oX"; "/tmp/tmp0"];
        ["nmap"; "-sn"; "-R"; "-PR"; "-oX"; "/tmp/tmp1"; "192.168.1.0/24"];
        ["nmap"; "-sn"; "-R"; "-PR"; "-oX"; "/tmp/tmp2"; "192.168.1.0/24"];
        ["nmap"; "-sO"; "-oX"; "/tmp/tmp3"; "192.168.1.0/24"];
        ["nmap"; "-sO"; "-oX"; "/tmp/tmp4"; "192.168.1.0/24"];
        ["nmap"; "-e"; "lan0"; "-6"; "-sS"; "-A"; "-T4"; "-oX"; "/tmp/tmp5"; "fe80::1"];
        ["nmap"; "-sS"; "-A"; "-T4"; "-oX"; "/tmp/tmp6"; "192.168.1.5"];
        ["nmap"; "-sS"; "-A"; "-T4"; "-oX"; "/tmp/tmp7"; "192.168.1.5"]]%string
  /\ In {| scan_type := Some SERVICE_DISCOVERY;
           scan_target := Some "192.168.1.5/32"%string;
           hosts := [] |}
        (queued (events (snd (@run_network_scans sweep_collaborators blacklisting_config
                                empty_world)))).
Proof.
  split; [now left|]. split; [vm_compute; reflexivity|].
  split; [vm_compute; reflexivity|].
  vm_compute. tauto.
Qed.


(** An in-depth scan of 192.168.1.5 returns a scan whose target is the
    host network 192.168.1.5/32. *)
Lemma scan_target_is_cidr_of_target_witness :
  scan_target (mkNmapScan (Some SERVICE_DISCOVERY) (Some "192.168.1.5/32"%string)
                          [host_fe80_1])
  = option_map cidr_form (Some (Address host_192_168_1_5))
  /\ (scan_target (mkNmapScan (Some SERVICE_DISCOVERY) (Some "192.168.1.5/32"%string)
                              [host_fe80_1]) = None
      <-> Some (Address host_192_168_1_5) = None)
  /\ scan_type (mkNmapScan (Some SERVICE_DISCOVERY) (Some "192.168.1.5/32"%string)
                           [host_fe80_1])
     = Some SERVICE_DISCOVERY.
Proof.
  apply (@scan_target_is_cidr_of_target sweep_collaborators SERVICE_DISCOVERY
           "-sS -A -T4" (Some (Address host_192_168_1_5)) empty_world
           (snd (@run_scan sweep_collaborators SERVICE_DISCOVERY "-sS -A -T4"
                   (Some (Address host_192_168_1_5)) empty_world))).
  vm_compute. reflexivity.
Defined.

Example cidr_form_examples :
  map cidr_form [Address host_192_168_1_5; Address host_fe80_1;
                 Network net_192_168_1_0_24; Network net_2001_db8_32]
  = ["192.168.1.5/32"; "fe80::1/128"; "192.168.1.0/24"; "2001:db8::/32"]%string.
Proof. vm_compute. reflexivity. Qed.

(** C4. The protocol scan of the IPv6 network 2001:db8::/32 runs the
    engine with the single argument ["-6-sO"]: neither ["-6"] nor ["-sO"]
    is among the arguments. *)
Theorem protocol_scan_ipv6_flag_is_glued :
  net_version net_2001_db8_32 = 6
  /\ commands (events (snd (@protocol_scan sweep_collaborators net_2001_db8_32
                              empty_world)))
     = [["nmap"; "-6-sO"; "-oX"; "/tmp/tmp0"; "2001:db8::/32"]]%string
  /\ ~ In "-6"%string
         (issued_command (protocol_scan_flags net_2001_db8_32)
                         (Some (Network net_2001_db8_32)) empty_world)
  /\ ~ In "-sO"%string
         (issued_command (protocol_scan_flags net_2001_db8_32)
                         (Some (Network net_2001_db8_32)) empty_world).
Proof.
  split; [reflexivity|]. split; [vm_compute; reflexivity|].
  split; vm_compute; intuition discriminate.
Qed.

(** For an IPv4 network the protocol scan passes ["-sO"] and no ["-6"]. *)
Example protocol_scan_ipv4_command :
  commands (events (snd (@protocol_scan sweep_collaborators net_192_168_1_0_24
                           empty_world)))
  = [["nmap"; "-sO"; "-oX"; "/tmp/tmp0"; "192.168.1.0/24"]]%string.
Proof. vm_compute. reflexivity. Qed.

(** C5, against the claim as stated. Without an interface the in-depth
    scan of fe80::1 fails with [TypeError], which is not an
    [InvalidTargetError]; and with interface lan0 the in-depth scan of the
    IPv4 link-local address 169.254.1.1 runs a command without ["-6"]. *)
Lemma indepth_link_local_counterexample :
  (is_link_local host_fe80_1 = true
   /\ fst (@indepth_host_scan sweep_collaborators host_fe80_1 None empty_world)
      = inl TypeError
   /\ exn_name TypeError <> "InvalidTargetError"%string)
  /\ (is_link_local host_169_254_1_1 = true
      /\ commands (events (snd (@indepth_host_scan sweep_collaborators host_169_254_1_1
                                  (Some "lan0"%string) empty_world)))
         = [["nmap"; "-e"; "lan0"; "-sS"; "-A"; "-T4"; "-oX"; "/tmp/tmp0";
             "169.254.1.1"]]%string
      /\ ~ In "-6"%string
             ["nmap"; "-e"; "lan0"; "-sS"; "-A"; "-T4"; "-oX"; "/tmp/tmp0";
              "169.254.1.1"]%string).
Proof.
  split; split; try (vm_compute; reflexivity).
  - split; [vm_compute; reflexivity | discriminate].
  - split; [vm_compute; reflexivity | simpl; intuition discriminate].
Qed.

(** The in-depth scan of fe80::1: refused without an interface, bound to
    lan0 and run in IPv6 mode with it. *)
Lemma indepth_link_local_needs_interface_witness :
  is_link_local host_fe80_1 = true
  /\ @indepth_host_scan sweep_collaborators host_fe80_1 None empty_world
     = (inl TypeError, empty_world)
  /\ commands (events (snd (@indepth_host_scan sweep_collaborators host_fe80_1
                              (Some "lan0"%string) empty_world)))
     = [["nmap"; "-e"; "lan0"; "-6"; "-sS"; "-A"; "-T4"; "-oX"; "/tmp/tmp0";
         "fe80::1"]]%string.
Proof.
  split; [reflexivity|].
  destruct (@indepth_link_local_needs_interface sweep_collaborators host_fe80_1
              "lan0"%string empty_world eq_refl) as (Hnone & Hsome & _).
  split; [exact Hnone|]. rewrite Hsome. vm_compute. reflexivity.
Defined.

(** The worked sweep: link-local discovery on lan0 finds fe80::1, each of
    the two ARP discoveries finds 192.168.1.5; the frontier lists
    192.168.1.5 twice and phase 4 scans it twice. *)
Lemma frontier_is_concatenation_of_discoveries_witness :
  @discovery_phases sweep_collaborators (NmapConfig_init lan_interfaces) empty_world
  = (inr [(host_fe80_1, Some "lan0"%string); (host_192_168_1_5, None);
          (host_192_168_1_5, None)],
     snd (@discovery_phases sweep_collaborators (NmapConfig_init lan_interfaces)
            empty_world))
  /\ @run_network_scans sweep_collaborators (NmapConfig_init lan_interfaces) empty_world
     = @host_scanning sweep_collaborators
         [(host_fe80_1, Some "lan0"%string); (host_192_168_1_5, None);
          (host_192_168_1_5, None)]
         (snd (@discovery_phases sweep_collaborators (NmapConfig_init lan_interfaces)
                 empty_world))
  /\ (exists cmds : list (list string),
         commands (events (snd (@run_network_scans sweep_collaborators
                                  (NmapConfig_init lan_interfaces) empty_world)))
         = commands (events (snd (@discovery_phases sweep_collaborators
                                    (NmapConfig_init lan_interfaces) empty_world)))
           ++ cmds
         /\ Forall2 indepth_command_of cmds
              [(host_fe80_1, Some "lan0"%string); (host_192_168_1_5, None);
               (host_192_168_1_5, None)]).
Proof.
  assert (Hphases :
            @discovery_phases sweep_collaborators (NmapConfig_init lan_interfaces)
              empty_world
            = (inr [(host_fe80_1, Some "lan0"%string); (host_192_168_1_5, None);
                    (host_192_168_1_5, None)],
               snd (@discovery_phases sweep_collaborators
                      (NmapConfig_init lan_interfaces) empty_world)))
    by (vm_compute; reflexivity).
  destruct (@frontier_is_concatenation_of_discoveries sweep_collaborators _ _ _ _ Hphases)
    as (Hsweep & _ & Hcmds).
  split; [exact Hphases|]. split; [exact Hsweep|].
  apply Hcmds. rewrite <- Hsweep. vm_compute. reflexivity.
Defined.

(** C8. The engine exits with status 1: [run_scan] raises [NmapFailure]
    and the temporary file it created, absent before the call, is still
    there afterwards. *)
Theorem tmp_file_leaks_on_engine_failure :
  fs empty_world !! "/tmp/tmp0"%string = None
  /\ fst (@run_scan broken_collaborators PORT_SCAN "-sS"
            (Some (Network net_192_168_1_0_24)) empty_world)
     = inl (NmapFailure 1 "failed to open device lan0")
  /\ fs (snd (@run_scan broken_collaborators PORT_SCAN "-sS"
                (Some (Network net_192_168_1_0_24)) empty_world)) !! "/tmp/tmp0"%string
     = Some EmptyString.
Proof. repeat split; vm_compute; reflexivity. Qed.

(** On a run with status zero the file is gone, also when the parser then
    fails. *)
Example tmp_file_removed_on_zero_exit :
  fs (snd (@run_scan sweep_collaborators ARP_DISCOVERY "-sn -R -PR"
             (Some (Network net_192_168_1_0_24)) empty_world)) !! "/tmp/tmp0"%string = None
  /\ fs (snd (@run_scan garbled_collaborators ARP_DISCOVERY "-sn -R -PR"
                (Some (Network net_192_168_1_0_24)) empty_world)) !! "/tmp/tmp0"%string
     = None.
Proof. split; vm_compute; reflexivity. Qed.

(** C9, against the claim as stated. The same port scan of 192.168.1.0/24
    is requested twice in a row; the first request fails and leaves its
    temporary file behind, so the second is handed a new name: the two
    argument lists differ in the path after [-oX]. *)
Lemma same_request_different_commands_counterexample :
  commands (events (snd (@run_scan broken_collaborators PORT_SCAN "-sS"
                           (Some (Network net_192_168_1_0_24))
                           (snd (@run_scan broken_collaborators PORT_SCAN "-sS"
                                   (Some (Network net_192_168_1_0_24)) empty_world)))))
  = [["nmap"; "-sS"; "-oX"; "/tmp/tmp0"; "192.168.1.0/24"];
     ["nmap"; "-sS"; "-oX"; "/tmp/tmp1"; "192.168.1.0/24"]]%string
  /\ ["nmap"; "-sS"; "-oX"; "/tmp/tmp0"; "192.168.1.0/24"]%string
     <> ["nmap"; "-sS"; "-oX"; "/tmp/tmp1"; "192.168.1.0/24"]%string.
Proof. split; [vm_compute; reflexivity | discriminate]. Qed.

(** Two port scans of 192.168.1.0/24 started from worlds that hand out
    the same temporary name build the same argument list. *)
Lemma command_deterministic_up_to_tmp_path_witness :
  tmp_seq empty_world = tmp_seq (mkWorld {["/etc/hosts"%string := EmptyString]} 0 4 [])
  /\ ("nmap"%string :: pystr.split " " "-sS" ++ ["-oX"%string])
       ++ tmp_path (tmp_seq empty_world) :: [target_compressed (Network net_192_168_1_0_24)]
     = ("nmap"%string :: pystr.split " " "-sS" ++ ["-oX"%string])
       ++ tmp_path (tmp_seq (mkWorld {["/etc/hosts"%string := EmptyString]} 0 4 []))
       :: [target_compressed (Network net_192_168_1_0_24)].
Proof.
  split; [reflexivity|].
  destruct (@command_deterministic_up_to_tmp_path sweep_collaborators PORT_SCAN "-sS"
              (Some (Network net_192_168_1_0_24)) empty_world
              (mkWorld {["/etc/hosts"%string := EmptyString]} 0 4 []))
    as (_ & _ & Hiff).
  apply Hiff. reflexivity.
Defined.

(** * Further properties of the module *)

(** ** Option strings and the logged command line *)

Section OptionStrings.

Lemma append_assoc (a b c : string) : (a +:+ b) +:+ c = a +:+ (b +:+ c).
Proof.
  induction a as [|x a IH]; [reflexivity|].
  rewrite !append_cons. now rewrite IH.
Qed.

Lemma append_nil_r (a : string) : a +:+ EmptyString = a.
Proof.
  induction a as [|x a IH]; [reflexivity|].
  rewrite append_cons. now rewrite IH.
Qed.

Lemma join_cons (sep p : string) (rest : list string) :
  rest <> [] -> pystr.join sep (p :: rest) = p +:+ sep +:+ pystr.join sep rest.
Proof. destruct rest; [contradiction | reflexivity]. Qed.

Lemma join_cons_char (sep : string) (c : ascii) (field : string) (rest : list string) :
  pystr.join sep (String c field :: rest) = String c (pystr.join sep (field :: rest)).
Proof. destruct rest; reflexivity. Qed.

Lemma join_app (sep : string) (a b : list string) :
  a <> [] -> b <> [] ->
  pystr.join sep (a ++ b) = pystr.join sep a +:+ sep +:+ pystr.join sep b.
Proof.
  intros Ha Hb. induction a as [|x a IH]; [contradiction|].
  destruct a as [|y a].
  - cbn [app]. now rewrite join_cons.
  - change ((x :: y :: a) ++ b) with (x :: ((y :: a) ++ b)).
    rewrite join_cons by discriminate. rewrite IH by discriminate.
    rewrite (join_cons sep x (y :: a)) by discriminate.
    now rewrite !append_assoc.
Qed.

(** Joining the fields of a string with the separator gives the string
    back. *)
Lemma join_split (s : string) : pystr.join " " (pystr.split " " s) = s.
Proof.
  induction s as [|c s IH]; [reflexivity|]. cbn [pystr.split].
  pose proof (split_nonempty " " s) as Hne.
  destruct (Ascii.eqb_spec c " ") as [->|Hc].
  - rewrite join_cons by exact Hne. now rewrite IH.
  - destruct (pystr.split " " s) as [|field fields]; [contradiction|].
    rewrite join_cons_char. now rewrite IH.
Qed.

Lemma split_fields (s : string) :
  Forall (fun field => ~ In " "%char (pystr.chars field)) (pystr.split " " s)
  /\ length (pystr.split " " s) = S (spaces s).
Proof.
  unfold spaces. induction s as [|c s [IHfields IHlen]].
  - split; [repeat constructor; simpl; tauto | reflexivity].
  - cbn [pystr.split pystr.chars count_occ].
    destruct (Ascii.eqb_spec c " ") as [->|Hc].
    + destruct (ascii_dec " " " ") as [_|Hne]; [|contradiction].
      split; [constructor; [simpl; tauto | exact IHfields] | simpl; now rewrite IHlen].
    + destruct (ascii_dec c " ") as [Heq|_]; [contradiction|].
      destruct (pystr.split " " s) as [|field fields]; [discriminate|].
      inversion IHfields as [|? ? Hfield Hrest]; subst.
      split; [|exact IHlen].
      constructor; [|exact Hrest]. simpl. intros [Heq|Hin]; [congruence | auto].
Qed.

(** Splitting undoes joining space-free pieces. *)
Lemma split_join (fields : list string) :
  fields <> [] ->
  Forall (fun field => ~ In " "%char (pystr.chars field)) fields ->
  pystr.split " " (pystr.join " " fields) = fields.
Proof.
  intros Hne Hfields. induction Hfields as [|field rest Hfield Hrest IH]; [contradiction|].
  destruct rest as [|next rest].
  - cbn [pystr.join]. now apply split_no_sep.
  - rewrite join_cons by discriminate.
    rewrite append_cons, append_nil, split_app_sep, IH by discriminate.
    now rewrite split_no_sep.
Qed.

(** X3. The option arguments [run_scan] hands to the engine, between
    [nmap] and [-oX], are the pieces of the option string between its
    spaces: they are free of spaces, joined by single spaces they give the
    option string back, and they are the only such list, one piece more
    than the string has spaces. Nothing is quoted or dropped: the empty
    option string gives one empty argument, and a doubled space or a
    trailing space gives an empty argument as well. *)
Theorem option_arguments_are_the_pieces_between_spaces (options xml_path : string)
        (target : option ScanTarget) :
  exists fields : list string,
    nmap_cmd options xml_path target
    = "nmap"%string :: fields ++ "-oX"%string :: xml_path
        :: match target with Some t => [target_compressed t] | None => [] end
    /\ pystr.join " " fields = options
    /\ Forall (fun field => ~ In " "%char (pystr.chars field)) fields
    /\ length fields = S (spaces options)
    /\ (forall other : list string,
           other <> [] ->
           Forall (fun field => ~ In " "%char (pystr.chars field)) other ->
           pystr.join " " other = options ->
           other = fields)
    /\ (options = EmptyString -> fields = [EmptyString])
    /\ (forall before after : string,
           options = before +:+ "  " +:+ after ->
           exists front back : list string, fields = front ++ EmptyString :: back)
    /\ (forall before : string,
           options = before +:+ " " ->
           exists front : list string, fields = front ++ [EmptyString]).
Proof.
  exists (pystr.split " " options). destruct (split_fields options) as [Hfields Hlen].
  split; [|split; [|split; [|split; [|split; [|split; [|split]]]]]].
  - unfold nmap_cmd. destruct target; cbn [app]; rewrite <- ?app_assoc; reflexivity.
  - apply join_split.
  - exact Hfields.
  - exact Hlen.
  - intros other Hne Hother <-. symmetry. now apply split_join.
  - intros ->. reflexivity.
  - intros before after ->. rewrite !append_cons, append_nil, split_app_sep.
    exists (pystr.split " " before), (pystr.split " " after). reflexivity.
  - intros before ->. rewrite split_app_sep.
    exists (pystr.split " " before). reflexivity.
Qed.

(** An option string with a doubled and a trailing space: four
    arguments, two of them empty. *)
Lemma option_arguments_are_the_pieces_between_spaces_witness :
  exists fields : list string,
    nmap_cmd "-sS  -p80 " "/tmp/tmp0" None
    = "nmap"%string :: fields ++ ["-oX"%string; "/tmp/tmp0"%string]
    /\ fields = ["-sS"%string; EmptyString; "-p80"%string; EmptyString].
Proof.
  destruct (option_arguments_are_the_pieces_between_spaces "-sS  -p80 " "/tmp/tmp0" None)
    as (fields & Hcmd & _ & _ & _ & Hunique & _).
  exists fields. split; [exact Hcmd|]. symmetry. apply Hunique.
  - discriminate.
  - repeat constructor; cbn; intuition discriminate.
  - reflexivity.
Defined.

(** X4. The command line written to the debug log reads back the option
    string exactly as it was given: it is [nmap], the option string, [-oX],
    the temporary path and the target text, separated by single spaces. *)
Theorem logged_command_spells_options (options xml_path : string)
        (target : option ScanTarget) :
  logged_command options xml_path target
  = "nmap " +:+ options +:+ " -oX " +:+ xml_path
    +:+ match target with
        | Some t => " " +:+ target_compressed t
        | None => EmptyString
        end.
Proof.
  unfold logged_command, nmap_cmd.
  pose proof (split_nonempty " " options) as Hne.
  assert (Hhead : pystr.join " " ((["nmap"%string] ++ pystr.split " " options)
                                    ++ ["-oX"%string; xml_path])
                  = "nmap " +:+ options +:+ " -oX " +:+ xml_path).
  { rewrite join_app; [|destruct (pystr.split " " options); discriminate|discriminate].
    rewrite join_app by (discriminate || assumption). rewrite join_split.
    cbn [pystr.join]. now rewrite !append_assoc. }
  destruct target as [t|].
  - rewrite join_app; [|destruct (pystr.split " " options); discriminate|discriminate].
    rewrite Hhead. cbn [pystr.join]. now rewrite !append_assoc.
  - rewrite Hhead. now rewrite append_nil_r.
Qed.

End OptionStrings.

(** ** More on the configuration and the scan categories *)

Section ConfigurationFacts.

(** What [NmapConfig.__init__] builds, in closed form. *)
Lemma NmapConfig_init_eq (interfaces : list Interface) :
  NmapConfig_init interfaces
  = {| scan_interfaces := map name (List.filter lan_like interfaces);
       networks_to_scan := flat_map bound_networks (List.filter lan_like interfaces);
       blacklisted_hosts := [] |}.
Proof. unfold NmapConfig_init. now rewrite select_interfaces_spec. Qed.

(** X1. Building the configuration from a list of interfaces given in two
    parts gives the interfaces and networks of the first part followed by
    those of the second, and in every case an empty [blacklisted_hosts]:
    the constructor never puts a host on the blacklist. *)
Theorem config_of_concatenation (first second : list Interface) :
  scan_interfaces (NmapConfig_init (first ++ second))
  = scan_interfaces (NmapConfig_init first) ++ scan_interfaces (NmapConfig_init second)
  /\ networks_to_scan (NmapConfig_init (first ++ second))
     = networks_to_scan (NmapConfig_init first) ++ networks_to_scan (NmapConfig_init second)
  /\ blacklisted_hosts (NmapConfig_init (first ++ second)) = [].
Proof.
  rewrite !NmapConfig_init_eq. cbn [scan_interfaces networks_to_scan blacklisted_hosts].
  rewrite List.filter_app, List.map_app, flat_map_app. auto.
Qed.

(** X2. The value strings of the scan categories are pairwise different:
    a category is determined by its value. *)
Theorem scan_type_value_injective (s t : NmapScanTypes) :
  scan_type_value s = scan_type_value t -> s = t.
Proof. destruct s, t; simpl; intros Heq; try reflexivity; discriminate Heq. Qed.

Lemma scan_type_value_injective_witness :
  scan_type_value ND_DISCOVERY = scan_type_value ND_DISCOVERY
  /\ ND_DISCOVERY = ND_DISCOVERY.
Proof.
  split; [reflexivity|]. apply (scan_type_value_injective ND_DISCOVERY ND_DISCOVERY).
  reflexivity.
Defined.

End ConfigurationFacts.

(** ** More on the scan executor *)

Section ExecutorFacts.

Context `{Collaborators}.

Lemma write_files_lookup (files : list (string * string)) (m : gmap string string)
      (path : string) :
  write_files files m !! path
  = match last_written path files with
    | Some content => Some content
    | None => m !! path
    end.
Proof.
  unfold write_files. revert m.
  induction files as [|[p c] files IH]; intros m; [reflexivity|].
  cbn [fold_left last_written fst snd]. rewrite IH.
  destruct (last_written path files); [reflexivity|].
  rewrite lookup_insert. destruct (decide (p = path)); reflexivity.
Qed.

Lemma xml_document_eq (options : string) (target : option ScanTarget) (w : World) :
  xml_document options target w
  = default EmptyString
      (last_written (tmp_path (tmp_seq w))
                    (files_written (engine_run options target w))).
Proof.
  unfold xml_document, files_after_engine. rewrite write_files_lookup.
  destruct (last_written _ _); [reflexivity|]. now rewrite lookup_insert_eq.
Qed.

Lemma files_after_engine_elsewhere (options : string) (target : option ScanTarget)
      (w : World) (path : string) :
  path <> tmp_path (tmp_seq w) ->
  files_after_engine options target w !! path
  = match last_written path (files_written (engine_run options target w)) with
    | Some content => Some content
    | None => fs w !! path
    end.
Proof.
  intros Hpath. unfold files_after_engine. rewrite write_files_lookup.
  destruct (last_written _ _); [reflexivity|]. now rewrite lookup_insert_ne.
Qed.

(** X6. [run_scan] itself changes no file but its temporary one: whatever
    the outcome, every other path holds afterwards what the engine wrote
    there last, and what it held before when the engine did not write
    it. *)
Theorem run_scan_touches_only_tmp_file (type : NmapScanTypes) (options : string)
        (target : option ScanTarget) (w : World) (path : string) :
  path <> tmp_path (tmp_seq w) ->
  fs (snd (run_scan type options target w)) !! path
  = match last_written path (files_written (engine_run options target w)) with
    | Some content => Some content
    | None => fs w !! path
    end.
Proof.
  intros Hpath. rewrite <- (files_after_engine_elsewhere _ _ _ _ Hpath).
  rewrite run_scan_eq.
  destruct (returncode (engine_run options target w) =? 0); [|reflexivity].
  destruct (parse_nmap_xml (xml_document options target w));
    cbn [snd fs world_after_remove]; now rewrite lookup_delete_ne.
Qed.

Lemma last_written_none (path : string) (files : list (string * string)) :
  Forall (fun pc => fst pc <> path) files -> last_written path files = None.
Proof.
  induction 1 as [|[p c] files Hp Hfiles IH]; [reflexivity|].
  cbn [last_written]. rewrite IH. cbn [fst] in Hp.
  destruct (decide (p = path)); [contradiction | reflexivity].
Qed.

End ExecutorFacts.

(** ** More on the command lines *)

Section CommandFacts.

Context `{Collaborators}.

Lemma net_compressed_not_flag (network : IPNetwork) (flag : string) :
  ~ In "/"%char (pystr.chars flag) -> net_compressed network <> flag.
Proof.
  intros Hflag Heq. apply Hflag. rewrite <- Heq. apply net_compressed_has_slash.
Qed.

Lemma link_local_options_split (interface : string) :
  pystr.split " "
    ("-6 -R -sn -e " +:+ interface +:+
     " --script=targets-ipv6-multicast-* --script-args=newtargets")
  = ["-6"; "-R"; "-sn"; "-e"]%string ++ pystr.split " " interface
    ++ ["--script=targets-ipv6-multicast-*"; "--script-args=newtargets"]%string.
Proof.
  change ("-6 -R -sn -e " +:+ interface +:+
          " --script=targets-ipv6-multicast-* --script-args=newtargets")
    with ("-6 -R -sn -e" +:+ " " +:+
          (interface +:+ " " +:+
           "--script=targets-ipv6-multicast-* --script-args=newtargets")).
  rewrite !split_glued. reflexivity.
Qed.

Lemma link_local_command_eq (interface : string) (w : World) :
  issued_command ("-6 -R -sn -e " +:+ interface +:+
                  " --script=targets-ipv6-multicast-* --script-args=newtargets")
                 None w
  = ["nmap"; "-6"; "-R"; "-sn"; "-e"]%string ++ pystr.split " " interface
    ++ ["--script=targets-ipv6-multicast-*"; "--script-args=newtargets";
        "-oX"; tmp_path (tmp_seq w)]%string.
Proof.
  rewrite issued_command_shape, link_local_options_split.
  cbn [app]. rewrite <- !app_assoc. reflexivity.
Qed.

(** X8. The link-local discovery on an interface runs [nmap -6 -R -sn -e]
    followed by the interface name, the two script arguments and the
    output file, with no target argument; the interface name is not
    quoted, so a name with spaces is passed as several arguments. A scan
    it returns has the link-local category and no target. *)
Theorem link_local_scan_command (interface : string) (w : World) :
  commands (events (snd (v6_link_local_scan interface w)))
  = commands (events w)
    ++ [["nmap"; "-6"; "-R"; "-sn"; "-e"]%string ++ pystr.split " " interface
        ++ ["--script=targets-ipv6-multicast-*"; "--script-args=newtargets";
            "-oX"; tmp_path (tmp_seq w)]%string]
  /\ (~ In " "%char (pystr.chars interface) -> pystr.split " " interface = [interface])
  /\ (forall scan w', v6_link_local_scan interface w = (inr scan, w') ->
        scan_type scan = Some IPV6_LINK_LOCAL_DISCOVERY /\ scan_target scan = None).
Proof.
  unfold v6_link_local_scan. split; [|split].
  - now rewrite run_scan_commands, link_local_command_eq.
  - apply split_no_sep.
  - intros scan w'. rewrite run_scan_eq.
    destruct (returncode _ =? 0); [|discriminate].
    destruct (parse_nmap_xml _); [discriminate|].
    intros Heq. injection Heq as <- _. now split.
Qed.

(** X9. The basic port scan runs [nmap -sS -oX <file> <network>] for every
    network, IPv6 networks included: it passes neither the IPv6-mode flag
    nor an interface, whatever the family and scope of the network. *)
Theorem basic_host_scan_command (network : IPNetwork) (w : World) :
  commands (events (snd (basic_host_scan network w)))
  = commands (events w)
    ++ [["nmap"%string; "-sS"%string; "-oX"%string; tmp_path (tmp_seq w);
         net_compressed network]]
  /\ ~ In "-6"%string
         ["nmap"%string; "-sS"%string; "-oX"%string; tmp_path (tmp_seq w);
          net_compressed network]
  /\ ~ In "-e"%string
         ["nmap"%string; "-sS"%string; "-oX"%string; tmp_path (tmp_seq w);
          net_compressed network].
Proof.
  unfold basic_host_scan. split; [now rewrite run_scan_commands, issued_command_shape|].
  assert (Hflag : forall flag : string,
             pystr.startswith "-" flag = true -> ~ In "/"%char (pystr.chars flag) ->
             flag <> "nmap"%string -> flag <> "-sS"%string -> flag <> "-oX"%string ->
             ~ In flag ["nmap"%string; "-sS"%string; "-oX"%string; tmp_path (tmp_seq w);
                        net_compressed network]).
  { intros flag Hdash Hslash H1 H2 H3 Hin.
    pose proof (tmp_path_not_flag (tmp_seq w) flag Hdash).
    pose proof (net_compressed_not_flag network flag Hslash).
    simpl in Hin. intuition congruence. }
  split; apply Hflag; try reflexivity; try discriminate; simpl; intuition discriminate.
Qed.

(** X10. For an address that is not link-local the in-depth scan ignores
    the interface it is given: with or without one it runs the same
    computation, never fails for lack of an interface, and its command is
    [nmap], [-6] exactly when the address is an IPv6 address, then
    [-sS -A -T4 -oX <file> <address>], with no interface flag. *)
Theorem indepth_scan_ignores_interface (address : IPAddress) (interface : option string)
        (w : World) :
  is_link_local address = false ->
  indepth_host_scan address interface = indepth_host_scan address None
  /\ fst (indepth_host_scan address interface w) <> inl TypeError
  /\ commands (events (snd (indepth_host_scan address interface w)))
     = commands (events w)
       ++ [["nmap"%string] ++ (if version address =? 6 then ["-6"%string] else [])
           ++ ["-sS"%string; "-A"%string; "-T4"%string; "-oX"%string;
               tmp_path (tmp_seq w); compressed address]].
Proof.
  intros Hll.
  assert (Hopt : forall i, indepth_options address i
                 = inr (if version address =? 6 then "-6 -sS -A -T4"%string
                        else "-sS -A -T4"%string)).
  { intros i. unfold indepth_options. rewrite Hll.
    destruct (version address =? 6); reflexivity. }
  unfold indepth_host_scan. rewrite !Hopt. split; [reflexivity|]. split.
  - rewrite run_scan_eq. destruct (returncode _ =? 0); [|discriminate].
    destruct (parse_nmap_xml _); discriminate.
  - rewrite run_scan_commands, issued_command_shape.
    destruct (version address =? 6); reflexivity.
Qed.

End CommandFacts.

Lemma link_local_scan_command_witness :
  commands (events (snd (@v6_link_local_scan sweep_collaborators "lan0" empty_world)))
  = [["nmap"; "-6"; "-R"; "-sn"; "-e"; "lan0"; "--script=targets-ipv6-multicast-*";
      "--script-args=newtargets"; "-oX"; "/tmp/tmp0"]]%string
  /\ pystr.split " " "lan0" = ["lan0"%string].
Proof.
  destruct (@link_local_scan_command sweep_collaborators "lan0" empty_world)
    as (Hcmd & Hsplit & _).
  split; [rewrite Hcmd; reflexivity|].
  apply Hsplit. simpl. intuition discriminate.
Defined.

Lemma indepth_scan_ignores_interface_witness :
  is_link_local host_192_168_1_5 = false
  /\ @indepth_host_scan sweep_collaborators host_192_168_1_5 (Some "lan0"%string)
     = @indepth_host_scan sweep_collaborators host_192_168_1_5 None.
Proof.
  split; [reflexivity|].
  apply (@indepth_scan_ignores_interface sweep_collaborators host_192_168_1_5
           (Some "lan0"%string) empty_world). reflexivity.
Defined.

(** ** More on the sweep *)

Section SweepFacts.

Context `{Collaborators}.

Section Rule.

Variable Q : World -> option exn -> World -> Prop.
Hypothesis HQ : scan_rule Q.

Lemma follows_ret {A : Type} (a : A) : follows Q (ret a).
Proof. intros w. apply HQ. Qed.

Lemma follows_bind {A B : Type} (c : M A) (k : A -> M B) :
  follows Q c -> (forall a, follows Q (k a)) -> follows Q (bind c k).
Proof.
  intros Hc Hk w. unfold bind. specialize (Hc w).
  destruct (c w) as [[e|a] w1]; cbn [fst snd outcome_error] in *; [exact Hc|].
  destruct HQ as (_ & Htrans & _). eapply Htrans; [exact Hc | apply Hk].
Qed.

Lemma follows_scan_process {B : Type} (type : NmapScanTypes) (options : string)
      (target : option ScanTarget) (interface : option string)
      (K : list (IPAddress * option string) -> M B) :
  (forall found, follows Q (K found)) ->
  follows Q (scan <- run_scan type options target ;;
             found <- process_and_send_scan scan interface ;;
             K found).
Proof.
  intros HK w. rewrite scan_process_eq.
  destruct HQ as (_ & Htrans & Hfail & Hparse & Hqueue).
  destruct (Z.eqb_spec (returncode (engine_run options target w)) 0) as [Hz|Hnz].
  - destruct (parse_nmap_xml (xml_document options target w)) as [msg|found] eqn:Hp;
      cbn [fst snd outcome_error].
    + now apply Hparse.
    + eapply Htrans; [apply (Hqueue type options target w found Hz Hp) | apply HK].
  - cbn [fst snd outcome_error]. now apply Hfail.
Qed.

Lemma follows_link_local_discovery (interfaces : list string)
      (discovered_hosts : list (IPAddress * option string)) :
  follows Q (link_local_discovery interfaces discovered_hosts).
Proof.
  revert discovered_hosts; induction interfaces as [|i interfaces IH]; intros acc.
  - apply follows_ret.
  - cbn [link_local_discovery]. apply follows_scan_process. intros found. apply IH.
Qed.

Lemma follows_network_discovery (networks : list IPNetwork)
      (discovered_hosts : list (IPAddress * option string)) :
  follows Q (network_discovery networks discovered_hosts).
Proof.
  revert discovered_hosts; induction networks as [|n networks IH]; intros acc.
  - apply follows_ret.
  - cbn [network_discovery]. unfold arp_host_discovery_scan, nd_host_discovery_scan.
    destruct (net_version n =? 4); apply follows_scan_process; intros found; apply IH.
Qed.

Lemma follows_protocol_discovery (networks : list IPNetwork) :
  follows Q (protocol_discovery networks).
Proof.
  induction networks as [|n networks IH].
  - apply follows_ret.
  - cbn [protocol_discovery]. apply follows_scan_process. intros _. apply IH.
Qed.

Hypothesis HTypeError : forall w, Q w (Some TypeError) w.

Lemma follows_host_scanning (discovered_hosts : list (IPAddress * option string)) :
  follows Q (host_scanning discovered_hosts).
Proof.
  induction discovered_hosts as [|[address interface] hosts IH].
  - apply follows_ret.
  - cbn [host_scanning fst snd]. unfold indepth_host_scan.
    destruct (indepth_options address interface) as [e|options] eqn:Hopt.
    + apply indepth_options_error in Hopt as ->. intros w. apply HTypeError.
    + apply follows_scan_process. intros _. apply IH.
Qed.

(** The whole sweep follows every rule of the scan loops that also holds
    of the [TypeError] of an in-depth scan. *)
Lemma follows_run_network_scans (nmap_config : NmapConfig) :
  follows Q (run_network_scans nmap_config).
Proof.
  unfold run_network_scans.
  apply follows_bind; [apply follows_link_local_discovery | intros d1].
  apply follows_bind; [apply follows_network_discovery | intros d2].
  apply follows_bind; [apply follows_protocol_discovery | intros _].
  apply follows_host_scanning.
Qed.

End Rule.



Lemma link_local_discovery_commands (interfaces : list string)
      (discovered_hosts frontier : list (IPAddress * option string)) (w w' : World) :
  link_local_discovery interfaces discovered_hosts w = (inr frontier, w') ->
  exists cmds : list (list string),
    commands (events w') = commands (events w) ++ cmds
    /\ Forall2 link_local_command_of cmds interfaces.
Proof.
  revert discovered_hosts w.
  induction interfaces as [|i interfaces IH]; intros acc w Hrun.
  - injection Hrun as _ <-. exists []. rewrite app_nil_r. split; [reflexivity | constructor].
  - cbn [link_local_discovery] in Hrun. unfold v6_link_local_scan in Hrun.
    apply scan_process_returns in Hrun as (found & Hrun).
    apply IH in Hrun as (cmds & Hc & Hcmds).
    eexists (_ :: cmds). rewrite Hc, commands_after_queue, <- app_assoc.
    split; [reflexivity|]. constructor; [|assumption].
    exists (tmp_path (tmp_seq w)). apply link_local_command_eq.
Qed.

Lemma network_discovery_commands (networks : list IPNetwork)
      (discovered_hosts frontier : list (IPAddress * option string)) (w w' : World) :
  network_discovery networks discovered_hosts w = (inr frontier, w') ->
  exists cmds : list (list string),
    commands (events w') = commands (events w) ++ cmds
    /\ Forall2 discovery_command_of cmds networks.
Proof.
  revert discovered_hosts w.
  induction networks as [|n networks IH]; intros acc w Hrun.
  - injection Hrun as _ <-. exists []. rewrite app_nil_r. split; [reflexivity | constructor].
  - cbn [network_discovery] in Hrun.
    unfold arp_host_discovery_scan, nd_host_discovery_scan in Hrun.
    destruct (net_version n =? 4) eqn:Hversion;
      apply scan_process_returns in Hrun as (found & Hrun);
      apply IH in Hrun as (cmds & Hc & Hcmds);
      eexists (_ :: cmds); rewrite Hc, commands_after_queue, <- app_assoc;
      (split; [reflexivity|]); (constructor; [|assumption]);
      exists (tmp_path (tmp_seq w)); rewrite Hversion; apply issued_command_shape.
Qed.

Lemma protocol_discovery_commands (networks : list IPNetwork) (w w' : World) :
  protocol_discovery networks w = (inr tt, w') ->
  exists cmds : list (list string),
    commands (events w') = commands (events w) ++ cmds
    /\ Forall2 protocol_command_of cmds networks.
Proof.
  revert w. induction networks as [|n networks IH]; intros w Hrun.
  - injection Hrun as <-. exists []. rewrite app_nil_r. split; [reflexivity | constructor].
  - cbn [protocol_discovery] in Hrun. unfold protocol_scan in Hrun.
    apply scan_process_returns in Hrun as (found & Hrun).
    apply IH in Hrun as (cmds & Hc & Hcmds).
    eexists (_ :: cmds). rewrite Hc, commands_after_queue, <- app_assoc.
    split; [reflexivity|]. constructor; [|assumption].
    exists (tmp_path (tmp_seq w)). rewrite issued_command_shape.
    unfold protocol_scan_flags. destruct (net_version n =? 6); reflexivity.
Qed.

Lemma frontier_of_length (link_local : list NmapScan) (interfaces : list string)
      (discovery : list NmapScan) :
  length link_local = length interfaces ->
  length (frontier_of link_local interfaces discovery)
  = (sum_list_with (fun scan => length (hosts scan)) link_local
     + sum_list_with (fun scan => length (hosts scan)) discovery)%nat.
Proof.
  intros Hlen. unfold frontier_of. rewrite length_app. f_equal.
  - revert interfaces Hlen.
    induction link_local as [|scan link_local IH]; intros [|i interfaces] Hlen;
      try discriminate; [reflexivity|].
    cbn [zip_with concat sum_list_with]. injection Hlen as Hlen.
    rewrite length_app, (IH _ Hlen). unfold tagged. now rewrite length_map.
  - induction discovery as [|scan discovery IH]; [reflexivity|].
    cbn [map concat sum_list_with]. rewrite length_app, IH.
    unfold tagged. now rewrite length_map.
Qed.

(** X14. A sweep that ends normally is the three discovery phases
    followed by the in-depth phase on the frontier they return, and that
    frontier is made of the hosts of the scans the discovery phases
    queued: the hosts of the link-local scans, each with the interface of
    its scan, then the hosts of the network discovery scans. Its engine
    runs are, in this order: one link-local discovery per scan interface,
    one host discovery per network (ARP for an IPv4 network, ND
    otherwise), one protocol scan per network, and one in-depth scan per
    entry of that frontier; their number is the number of interfaces plus
    twice the number of networks plus the number of hosts in the
    link-local and network discovery scans. *)
Theorem completed_sweep_command_sequence (nmap_config : NmapConfig) (w w' : World) :
  run_network_scans nmap_config w = (inr tt, w') ->
  exists (w1 : World) (link_local_scans discovery_scans protocol_scans : list NmapScan)
         (link_local discovery protocol indepth : list (list string)),
    discovery_phases nmap_config w
    = (inr (frontier_of link_local_scans (scan_interfaces nmap_config) discovery_scans),
       w1)
    /\ host_scanning
         (frontier_of link_local_scans (scan_interfaces nmap_config) discovery_scans) w1
       = (inr tt, w')
    /\ queued (events w1)
       = queued (events w) ++ link_local_scans ++ discovery_scans ++ protocol_scans
    /\ Forall2 link_local_scan_of link_local_scans (scan_interfaces nmap_config)
    /\ Forall2 discovery_scan_of discovery_scans (networks_to_scan nmap_config)
    /\ Forall2 protocol_scan_of protocol_scans (networks_to_scan nmap_config)
    /\ commands (events w')
       = commands (events w) ++ link_local ++ discovery ++ protocol ++ indepth
    /\ Forall2 link_local_command_of link_local (scan_interfaces nmap_config)
    /\ Forall2 discovery_command_of discovery (networks_to_scan nmap_config)
    /\ Forall2 protocol_command_of protocol (networks_to_scan nmap_config)
    /\ Forall2 indepth_command_of indepth
               (frontier_of link_local_scans (scan_interfaces nmap_config)
                            discovery_scans)
    /\ length (link_local ++ discovery ++ protocol ++ indepth)
       = (length (scan_interfaces nmap_config)
          + 2 * length (networks_to_scan nmap_config)
          + sum_list_with (fun scan => length (hosts scan)) link_local_scans
          + sum_list_with (fun scan => length (hosts scan)) discovery_scans)%nat.
Proof.
  unfold run_network_scans, discovery_phases, bind.
  destruct (link_local_discovery (scan_interfaces nmap_config) [] w)
    as [[e|d1] wa] eqn:H1; [discriminate|].
  destruct (network_discovery (networks_to_scan nmap_config) d1 wa)
    as [[e|d2] wb] eqn:H2; [discriminate|].
  destruct (protocol_discovery (networks_to_scan nmap_config) wb)
    as [[e|[]] wc] eqn:H3; [discriminate|].
  intros H4.
  destruct (link_local_discovery_frontier _ _ _ _ _ H1) as (ll & Hq1 & Hll & ->).
  destruct (network_discovery_frontier _ _ _ _ _ H2) as (nd & Hq2 & Hnd & ->).
  destruct (protocol_discovery_queue _ _ _ H3) as (pd & Hq3 & Hpd).
  apply link_local_discovery_commands in H1 as (c1 & Hc1 & Hf1).
  apply network_discovery_commands in H2 as (c2 & Hc2 & Hf2).
  apply protocol_discovery_commands in H3 as (c3 & Hc3 & Hf3).
  destruct (host_scanning_commands _ _ _ H4) as (c4 & Hc4 & Hf4).
  exists wc, ll, nd, pd, c1, c2, c3, c4.
  split; [reflexivity|]. split; [exact H4|].
  split; [rewrite Hq3, Hq2, Hq1, <- !app_assoc; reflexivity|].
  split; [exact Hll|]. split; [exact Hnd|]. split; [exact Hpd|].
  split; [rewrite Hc4, Hc3, Hc2, Hc1, <- !app_assoc; reflexivity|].
  split; [exact Hf1|]. split; [exact Hf2|]. split; [exact Hf3|].
  split; [exact Hf4|].
  rewrite !length_app.
  rewrite (Forall2_length _ _ _ Hf1), (Forall2_length _ _ _ Hf2),
    (Forall2_length _ _ _ Hf3), (Forall2_length _ _ _ Hf4).
  change (([] ++ concat (zip_with (fun scan interface => tagged (Some interface) scan)
                                  ll (scan_interfaces nmap_config)))
          ++ concat (map (tagged None) nd))
    with (frontier_of ll (scan_interfaces nmap_config) nd).
  rewrite (frontier_of_length _ _ _ (Forall2_length _ _ _ Hll)). lia.
Qed.

Lemma tmp_path_in_issued_command (options : string) (target : option ScanTarget)
      (w : World) :
  In (tmp_path (tmp_seq w)) (issued_command options target w).
Proof. rewrite issued_command_shape. apply in_or_app. right. now left. Qed.

(** The rule of the left-over file: in the world [NmapFailure] leaves, the
    last thing that happened is the failed engine run, and the temporary
    file handed out last is named on its command line and still exists. *)
Lemma leftover_rule :
  scan_rule (fun _ r w' =>
               match r with
               | Some (NmapFailure code _) =>
                   exists (done : list Event) (args : list string),
                     events w' = done ++ [Exec args code]
                     /\ In (tmp_path (pred (tmp_seq w'))) args
                     /\ is_Some (fs w' !! tmp_path (pred (tmp_seq w')))
               | _ => True
               end).
Proof.
  repeat split; auto.
  intros options target w _. exists (events w), (issued_command options target w).
  cbn [events tmp_seq fs world_at_failure pred].
  split; [reflexivity|]. split; [apply tmp_path_in_issued_command|].
  rewrite tmp_file_present. eauto.
Qed.

(** X15. A sweep that ends in [NmapFailure] leaves a file behind: the
    output file named on the command line of the failed engine run, which
    is the temporary file handed out last, still exists when the sweep is
    left. *)
Theorem failed_sweep_leaves_output_file (nmap_config : NmapConfig) (w : World)
        (code : Z) (message : string) :
  fst (run_network_scans nmap_config w) = inl (NmapFailure code message) ->
  exists (done : list Event) (args : list string),
    events (snd (run_network_scans nmap_config w)) = done ++ [Exec args code]
    /\ In (tmp_path (pred (tmp_seq (snd (run_network_scans nmap_config w))))) args
    /\ is_Some (fs (snd (run_network_scans nmap_config w))
                  !! tmp_path (pred (tmp_seq (snd (run_network_scans nmap_config w))))).
Proof.
  intros Hfail.
  pose proof (follows_run_network_scans _ leftover_rule (fun _ => I) nmap_config w)
    as Hrule.
  rewrite Hfail in Hrule. exact Hrule.
Qed.

(** Phase 4 stops at the first link-local entry without interface, if not
    before: it ends in an exception and has run at most one in-depth
    command per entry in front of that one. *)
Lemma host_scanning_stops (before after : list (IPAddress * option string))
      (address : IPAddress) (w : World) :
  is_link_local address = true ->
  exists (e : exn) (t : list Event),
    fst (host_scanning (before ++ (address, None) :: after) w) = inl e
    /\ events (snd (host_scanning (before ++ (address, None) :: after) w))
       = events w ++ t
    /\ (length (commands t) <= length before)%nat.
Proof.
  intros Hll. revert w. induction before as [|[b i] before IH]; intros w.
  - cbn [app host_scanning fst snd]. unfold indepth_host_scan, indepth_options.
    rewrite Hll. exists TypeError, []. rewrite app_nil_r.
    destruct (version address =? 6); cbn; auto.
  - cbn [app host_scanning fst snd length]. unfold indepth_host_scan.
    destruct (indepth_options b i) as [e|options].
    + exists e, []. rewrite app_nil_r. cbn. auto with lia.
    + rewrite scan_process_eq.
      destruct (returncode (engine_run options (Some (Address b)) w) =? 0).
      * destruct (parse_nmap_xml (xml_document options (Some (Address b)) w))
          as [msg|found].
        -- eexists _, [_]. cbn [fst snd events world_after_remove].
           unfold events_after_engine. split; [reflexivity|].
           split; [reflexivity | simpl; lia].
        -- destruct (IH (world_after_queue SERVICE_DISCOVERY options (Some (Address b))
                           found w)) as (e & t & He & Hev & Hlen).
           exists e, ([Exec (issued_command options (Some (Address b)) w)
                            (returncode (engine_run options (Some (Address b)) w));
                       SignReport (returned_scan SERVICE_DISCOVERY (Some (Address b)) found);
                       LoadIntoQueue (returned_scan SERVICE_DISCOVERY (Some (Address b))
                                                    found)] ++ t).
           split; [exact He|]. rewrite Hev. cbn [events world_after_queue].
           unfold events_after_engine. rewrite <- !app_assoc.
           split; [reflexivity | simpl; lia].
      * eexists _, [_]. cbn [fst snd events world_at_failure].
        unfold events_after_engine. split; [reflexivity|].
        split; [reflexivity | simpl; lia].
Qed.

(** X11. When the discovery phases put a link-local address without
    interface on the frontier (any host of a phase 2 scan is untagged),
    the sweep cannot end normally: phase 4 raises at that entry at the
    latest, having run at most one in-depth command per entry in front of
    it, and no entry behind it is ever scanned. *)
Theorem untagged_link_local_host_aborts_sweep (nmap_config : NmapConfig)
        (before after : list (IPAddress * option string)) (address : IPAddress)
        (w w1 : World) :
  discovery_phases nmap_config w = (inr (before ++ (address, None) :: after), w1) ->
  is_link_local address = true ->
  exists (e : exn) (t : list Event),
    fst (run_network_scans nmap_config w) = inl e
    /\ events (snd (run_network_scans nmap_config w)) = events w1 ++ t
    /\ (length (commands t) <= length before)%nat.
Proof.
  intros Hphases Hll.
  assert (Hsweep : run_network_scans nmap_config w
                   = host_scanning (before ++ (address, None) :: after) w1).
  { revert Hphases. unfold discovery_phases, run_network_scans, bind.
    destruct (link_local_discovery (scan_interfaces nmap_config) [] w)
      as [[e|d1] wa]; [discriminate|].
    destruct (network_discovery (networks_to_scan nmap_config) d1 wa)
      as [[e|d2] wb]; [discriminate|].
    destruct (protocol_discovery (networks_to_scan nmap_config) wb)
      as [[e|[]] wc]; [discriminate|].
    intros Heq. injection Heq as -> ->. reflexivity. }
  rewrite Hsweep. now apply host_scanning_stops.
Qed.

End SweepFacts.

(** ** Further worked scenarios *)

Lemma run_scan_touches_only_tmp_file_witness :
  "/etc/hosts"%string <> tmp_path (tmp_seq hosts_file_world)
  /\ fs (snd (@run_scan broken_collaborators PORT_SCAN "-sS"
                (Some (Network net_192_168_1_0_24)) hosts_file_world))
       !! "/etc/hosts"%string
     = Some "127.0.0.1 localhost"%string.
Proof.
  assert (Hpath : "/etc/hosts"%string <> tmp_path (tmp_seq hosts_file_world))
    by (vm_compute; discriminate).
  split; [exact Hpath|].
  rewrite (@run_scan_touches_only_tmp_file broken_collaborators PORT_SCAN "-sS"
             (Some (Network net_192_168_1_0_24)) hosts_file_world _ Hpath).
  vm_compute. reflexivity.
Defined.

(** The first ARP discovery reports fe80::1: the frontier holds it once
    with the interface of the link-local scan and once without, and the
    sweep ends in an exception after the one in-depth scan in front. *)
Lemma untagged_link_local_host_aborts_sweep_witness :
  exists (e : exn) (t : list Event),
    fst (@run_network_scans stray_collaborators (NmapConfig_init lan_interfaces)
           empty_world) = inl e
    /\ events (snd (@run_network_scans stray_collaborators
                      (NmapConfig_init lan_interfaces) empty_world))
       = events (snd (@discovery_phases stray_collaborators
                        (NmapConfig_init lan_interfaces) empty_world)) ++ t
    /\ (length (commands t) <= 1)%nat.
Proof.
  apply (@untagged_link_local_host_aborts_sweep stray_collaborators
           (NmapConfig_init lan_interfaces) [(host_fe80_1, Some "lan0"%string)] []
           host_fe80_1 empty_world).
  - vm_compute. reflexivity.
  - reflexivity.
Defined.

Example stray_sweep_ends_in_type_error :
  fst (@run_network_scans stray_collaborators (NmapConfig_init lan_interfaces)
         empty_world) = inl TypeError.
Proof. vm_compute. reflexivity. Qed.


(** The worked sweep: one interface, two networks, and a frontier of
    the hosts its three discovery scans reported. *)
Lemma completed_sweep_command_sequence_witness :
  exists (w1 : World) (link_local_scans discovery_scans protocol_scans : list NmapScan)
         (link_local discovery protocol indepth : list (list string)),
    @discovery_phases sweep_collaborators (NmapConfig_init lan_interfaces) empty_world
    = (inr (frontier_of link_local_scans
                        (scan_interfaces (NmapConfig_init lan_interfaces))
                        discovery_scans), w1)
    /\ @host_scanning sweep_collaborators
         (frontier_of link_local_scans
                      (scan_interfaces (NmapConfig_init lan_interfaces))
                      discovery_scans) w1
       = (inr tt, snd (@run_network_scans sweep_collaborators
                         (NmapConfig_init lan_interfaces) empty_world))
    /\ queued (events w1)
       = queued (events empty_world)
         ++ link_local_scans ++ discovery_scans ++ protocol_scans
    /\ Forall2 link_local_scan_of link_local_scans
               (scan_interfaces (NmapConfig_init lan_interfaces))
    /\ Forall2 discovery_scan_of discovery_scans
               (networks_to_scan (NmapConfig_init lan_interfaces))
    /\ Forall2 protocol_scan_of protocol_scans
               (networks_to_scan (NmapConfig_init lan_interfaces))
    /\ commands (events (snd (@run_network_scans sweep_collaborators
                                (NmapConfig_init lan_interfaces) empty_world)))
       = commands (events empty_world) ++ link_local ++ discovery ++ protocol ++ indepth
    /\ Forall2 link_local_command_of link_local
               (scan_interfaces (NmapConfig_init lan_interfaces))
    /\ Forall2 discovery_command_of discovery
               (networks_to_scan (NmapConfig_init lan_interfaces))
    /\ Forall2 protocol_command_of protocol
               (networks_to_scan (NmapConfig_init lan_interfaces))
    /\ Forall2 indepth_command_of indepth
               (frontier_of link_local_scans
                            (scan_interfaces (NmapConfig_init lan_interfaces))
                            discovery_scans)
    /\ length (link_local ++ discovery ++ protocol ++ indepth)
       = (length (scan_interfaces (NmapConfig_init lan_interfaces))
          + 2 * length (networks_to_scan (NmapConfig_init lan_interfaces))
          + sum_list_with (fun scan => length (hosts scan)) link_local_scans
          + sum_list_with (fun scan => length (hosts scan)) discovery_scans)%nat.
Proof.
  apply (@completed_sweep_command_sequence sweep_collaborators).
  vm_compute. reflexivity.
Defined.

Lemma failed_sweep_leaves_output_file_witness :
  exists (done : list Event) (args : list string),
    events (snd (@run_network_scans failing_collaborators
                   (NmapConfig_init lan_interfaces) empty_world))
    = done ++ [Exec args 1]
    /\ In (tmp_path (pred (tmp_seq (snd (@run_network_scans failing_collaborators
                                           (NmapConfig_init lan_interfaces)
                                           empty_world))))) args
    /\ is_Some (fs (snd (@run_network_scans failing_collaborators
                           (NmapConfig_init lan_interfaces) empty_world))
                  !! tmp_path (pred (tmp_seq (snd (@run_network_scans
                                                     failing_collaborators
                                                     (NmapConfig_init lan_interfaces)
                                                     empty_world))))).
Proof.
  apply (@failed_sweep_leaves_output_file failing_collaborators
           (NmapConfig_init lan_interfaces) empty_world 1 "route down"%string).
  vm_compute. reflexivity.
Defined.

Example failed_sweep_left_file :
  fs (snd (@run_network_scans failing_collaborators (NmapConfig_init lan_interfaces)
             empty_world)) !! "/tmp/tmp1"%string = Some EmptyString.
Proof. vm_compute. reflexivity. Qed.

(** * The scan executor with the failures of the platform *)

Example utf8_valid_examples :
  map Fallible.utf8_valid
      ["failed to open device lan0"%string;
       String (ascii_of_N 0xC3) (String (ascii_of_N 0xA9) EmptyString);
       String (ascii_of_N 0xE2) (String (ascii_of_N 0x82)
         (String (ascii_of_N 0xAC) EmptyString));
       String (ascii_of_N 0xF0) (String (ascii_of_N 0x9F)
         (String (ascii_of_N 0x98) (String (ascii_of_N 0x80) EmptyString)));
       Fallible.not_utf8;
       String (ascii_of_N 0xC3) EmptyString;
       String (ascii_of_N 0xC0) (String (ascii_of_N 0x80) EmptyString);
       String (ascii_of_N 0xED) (String (ascii_of_N 0xA0)
         (String (ascii_of_N 0x80) EmptyString));
       String (ascii_of_N 0x80) EmptyString]
  = [true; true; true; true; false; false; false; false; false].
Proof. vm_compute. reflexivity. Qed.

Section FallibleExecutor.

Context `{Fallible.Platform}.

Lemma fallible_tmp_file_present (proc : Fallible.CompletedProcess) (w : Fallible.World) :
  Fallible.files_after proc w !! tmp_path (Fallible.tmp_seq w)
  = Some (Fallible.document proc w).
Proof.
  unfold Fallible.files_after, Fallible.document. rewrite write_files_lookup.
  destruct (last_written _ _); [reflexivity|]. now rewrite lookup_insert_eq.
Qed.

(** [run_scan] in one step, with every way it can end. *)
Lemma fallible_run_scan_eq (type : NmapScanTypes) (options : string)
      (target : option ScanTarget) (w : Fallible.World) :
  Fallible.run_scan type options target w =
  match Fallible.tmp_failure (Fallible.tmp_seq w) with
  | Some message => (inl (Fallible.OSError message), Fallible.world_without_tmp w)
  | None =>
      match Fallible.started options target w with
      | inl e => (inl (Fallible.spawn_exn e), Fallible.world_not_started w)
      | inr proc =>
          if Fallible.returncode proc =? 0 then
            match Fallible.read_back proc w with
            | inl e => (inl e, Fallible.world_with_tmp options target proc w)
            | inr text =>
                match Fallible.removal w with
                | Some message =>
                    (inl (Fallible.OSError message),
                     Fallible.world_with_tmp options target proc w)
                | None =>
                    match Fallible.parser text with
                    | inl message =>
                        (inl (Fallible.ParseError message),
                         Fallible.world_after_remove options target proc w)
                    | inr found =>
                        (inr (returned_scan type target found),
                         Fallible.world_after_remove options target proc w)
                    end
                end
            end
          else if Fallible.utf8_valid (Fallible.stderr proc) then
            (inl (Fallible.NmapFailure (Fallible.returncode proc) (Fallible.stderr proc)),
             Fallible.world_with_tmp options target proc w)
          else
            (inl Fallible.UnicodeDecodeError,
             Fallible.world_with_tmp options target proc w)
      end
  end.
Proof.
  unfold Fallible.run_scan, Fallible.bind at 1, Fallible.mkstemp.
  destruct (Fallible.tmp_failure (Fallible.tmp_seq w)) as [message|]; [reflexivity|].
  unfold Fallible.bind at 1, Fallible.subprocess_run, Fallible.started,
    Fallible.issued_command.
  cbn [snd Fallible.fs Fallible.tmp_seq Fallible.nmap_runs Fallible.open_fds
       Fallible.events].
  destruct (Fallible.engine (Fallible.nmap_runs w)
              (nmap_cmd options (tmp_path (Fallible.tmp_seq w)) target))
    as [e|proc]; [reflexivity|].
  change (write_files (Fallible.files_written proc)
            (<[tmp_path (Fallible.tmp_seq w) := EmptyString]> (Fallible.fs w)))
    with (Fallible.files_after proc w).
  destruct (Fallible.returncode proc =? 0); cbn [negb].
  - unfold Fallible.bind at 1, Fallible.read_file, Fallible.read_back, Fallible.removal.
    cbn [Fallible.fs].
    destruct (Fallible.open_failure (tmp_path (Fallible.tmp_seq w))); [reflexivity|].
    rewrite fallible_tmp_file_present.
    destruct (Fallible.text_of (Fallible.document proc w)) as [text|]; [|reflexivity].
    unfold Fallible.bind at 1, Fallible.os_remove. cbn [Fallible.fs].
    destruct (Fallible.remove_failure (tmp_path (Fallible.tmp_seq w))); [reflexivity|].
    rewrite fallible_tmp_file_present.
    unfold Fallible.bind, Fallible.parse_into, Fallible.raise, Fallible.ret.
    destruct (Fallible.parser text) as [message|found]; [reflexivity|].
    destruct target; reflexivity.
  - unfold Fallible.bind, Fallible.str_utf8, Fallible.raise, Fallible.ret.
    destruct (Fallible.utf8_valid (Fallible.stderr proc)); reflexivity.
Qed.

(** C7 (as amended). [run_scan] raises [NmapFailure] if and only if the
    temporary file could be created, the engine could be started, it
    exited with a nonzero status and the bytes it left on standard error
    are valid UTF-8; the exception then carries that status and that text.
    A nonzero status with bytes that are not UTF-8 raises the decoding
    error instead, because the text is decoded inside the [raise]. After
    a status of zero [NmapFailure] is never raised: the outcome is the
    error of opening or decoding the temporary file, the error of
    removing it, the parser's error, or the scan. *)
Theorem nmap_failure_iff_nonzero_exit_and_text (type : NmapScanTypes) (options : string)
        (target : option ScanTarget) (w : Fallible.World) :
  (forall code message,
      fst (Fallible.run_scan type options target w)
      = inl (Fallible.NmapFailure code message)
      <-> Fallible.tmp_failure (Fallible.tmp_seq w) = None
          /\ exists proc,
               Fallible.started options target w = inr proc
               /\ Fallible.returncode proc <> 0
               /\ Fallible.utf8_valid (Fallible.stderr proc) = true
               /\ code = Fallible.returncode proc
               /\ message = Fallible.stderr proc)
  /\ (forall proc,
         Fallible.tmp_failure (Fallible.tmp_seq w) = None ->
         Fallible.started options target w = inr proc ->
         Fallible.returncode proc <> 0 ->
         Fallible.utf8_valid (Fallible.stderr proc) = false ->
         fst (Fallible.run_scan type options target w) = inl Fallible.UnicodeDecodeError)
  /\ (forall proc,
         Fallible.tmp_failure (Fallible.tmp_seq w) = None ->
         Fallible.started options target w = inr proc ->
         Fallible.returncode proc = 0 ->
         fst (Fallible.run_scan type options target w)
         = match Fallible.open_failure (tmp_path (Fallible.tmp_seq w)) with
           | Some message => inl (Fallible.OSError message)
           | None =>
               match Fallible.text_of (Fallible.document proc w) with
               | None => inl Fallible.UnicodeDecodeError
               | Some text =>
                   match Fallible.remove_failure (tmp_path (Fallible.tmp_seq w)) with
                   | Some message => inl (Fallible.OSError message)
                   | None =>
                       match Fallible.parser text with
                       | inl msg => inl (Fallible.ParseError msg)
                       | inr found => inr (returned_scan type target found)
                       end
                   end
               end
           end).
Proof.
  rewrite fallible_run_scan_eq. unfold Fallible.read_back, Fallible.removal.
  split; [|split].
  - intros code message. split.
    + destruct (Fallible.tmp_failure (Fallible.tmp_seq w)); [discriminate|].
      destruct (Fallible.started options target w) as [e|proc];
        [destruct e; discriminate|].
      destruct (Z.eqb_spec (Fallible.returncode proc) 0) as [Hz|Hnz].
      * destruct (Fallible.open_failure _); [discriminate|].
        destruct (Fallible.text_of _); [|discriminate].
        destruct (Fallible.remove_failure _); [discriminate|].
        destruct (Fallible.parser _); discriminate.
      * destruct (Fallible.utf8_valid (Fallible.stderr proc)) eqn:Hvalid;
          [|discriminate].
        intros Heq. injection Heq as <- <-. split; [reflexivity|].
        exists proc. auto.
    + intros (Htmp & proc & Hproc & Hnz & Hvalid & -> & ->).
      rewrite Htmp, Hproc, Hvalid.
      destruct (Z.eqb_spec (Fallible.returncode proc) 0); [contradiction | reflexivity].
  - intros proc Htmp Hproc Hnz Hvalid. rewrite Htmp, Hproc, Hvalid.
    destruct (Z.eqb_spec (Fallible.returncode proc) 0); [contradiction | reflexivity].
  - intros proc Htmp Hproc Hz. rewrite Htmp, Hproc, Hz. cbn [Z.eqb].
    destruct (Fallible.open_failure _); [reflexivity|].
    destruct (Fallible.text_of _); [|reflexivity].
    destruct (Fallible.remove_failure _); [reflexivity|].
    destruct (Fallible.parser _); reflexivity.
Qed.

(** X5. The hosts of a scan [run_scan] returns are what the parser found
    in the text the platform decoded, in text mode, from the bytes the
    engine wrote last to the temporary file (from no bytes when it wrote
    none): not in the bytes themselves. A scan is returned only after an
    engine run with status zero whose file could be opened, decoded and
    removed. *)
Theorem returned_hosts_come_from_decoded_document (type : NmapScanTypes)
        (options : string) (target : option ScanTarget) (w w' : Fallible.World)
        (scan : NmapScan) :
  Fallible.run_scan type options target w = (inr scan, w') ->
  exists (proc : Fallible.CompletedProcess) (text : string),
    Fallible.started options target w = inr proc
    /\ Fallible.returncode proc = 0
    /\ Fallible.open_failure (tmp_path (Fallible.tmp_seq w)) = None
    /\ Fallible.text_of
         (default EmptyString
            (last_written (tmp_path (Fallible.tmp_seq w)) (Fallible.files_written proc)))
       = Some text
    /\ Fallible.remove_failure (tmp_path (Fallible.tmp_seq w)) = None
    /\ Fallible.parser text = inr (hosts scan)
    /\ scan = returned_scan type target (hosts scan).
Proof.
  rewrite fallible_run_scan_eq. unfold Fallible.read_back, Fallible.removal.
  destruct (Fallible.tmp_failure (Fallible.tmp_seq w)); [discriminate|].
  destruct (Fallible.started options target w) as [e|proc]; [discriminate|].
  destruct (Z.eqb_spec (Fallible.returncode proc) 0) as [Hz|Hnz];
    [|destruct (Fallible.utf8_valid _); discriminate].
  destruct (Fallible.open_failure _) eqn:Hopen; [discriminate|].
  destruct (Fallible.text_of (Fallible.document proc w)) as [text|] eqn:Htext;
    [|discriminate].
  destruct (Fallible.remove_failure _) eqn:Hremove; [discriminate|].
  destruct (Fallible.parser text) as [msg|found] eqn:Hparse; [discriminate|].
  intros Heq. injection Heq as <- _. exists proc, text. repeat split; auto.
Qed.

Lemma fallible_files_after_only_tmp (proc : Fallible.CompletedProcess)
      (w : Fallible.World) :
  Forall (fun pc => fst pc = tmp_path (Fallible.tmp_seq w)) (Fallible.files_written proc) ->
  Fallible.files_after proc w
  = <[tmp_path (Fallible.tmp_seq w) := Fallible.document proc w]> (Fallible.fs w).
Proof.
  intros Hsink. apply map_eq. intros path.
  destruct (decide (path = tmp_path (Fallible.tmp_seq w))) as [->|Hpath].
  - now rewrite fallible_tmp_file_present, lookup_insert_eq.
  - unfold Fallible.files_after. rewrite write_files_lookup, last_written_none.
    + now rewrite !lookup_insert_ne by congruence.
    + eapply Forall_impl; [exact Hsink|]. cbn beta. intros pc Hpc. congruence.
Qed.

(** X7. When the temporary file could be created under a free name and
    the engine, once started, wrote no file but that one, [run_scan]
    leaves the files as it found them if the engine exited with status
    zero and the file could be opened, decoded and removed (also when the
    parser then rejects the text); in every other case, a nonzero status,
    a file that cannot be opened or decoded, or a removal that fails, the
    temporary file with the engine's document is the one file it leaves
    behind. *)
Theorem files_restored_iff_document_read (type : NmapScanTypes) (options : string)
        (target : option ScanTarget) (w : Fallible.World)
        (proc : Fallible.CompletedProcess) :
  Fallible.tmp_failure (Fallible.tmp_seq w) = None ->
  Fallible.fs w !! tmp_path (Fallible.tmp_seq w) = None ->
  Fallible.started options target w = inr proc ->
  Forall (fun pc => fst pc = tmp_path (Fallible.tmp_seq w)) (Fallible.files_written proc) ->
  (Fallible.returncode proc = 0 ->
   (exists text, Fallible.read_back proc w = inr text) ->
   Fallible.removal w = None ->
   Fallible.fs (snd (Fallible.run_scan type options target w)) = Fallible.fs w)
  /\ (Fallible.returncode proc <> 0
      \/ (exists e, Fallible.read_back proc w = inl e)
      \/ is_Some (Fallible.removal w) ->
      Fallible.fs (snd (Fallible.run_scan type options target w))
      = <[tmp_path (Fallible.tmp_seq w) := Fallible.document proc w]> (Fallible.fs w)
      /\ Fallible.fs (snd (Fallible.run_scan type options target w)) <> Fallible.fs w).
Proof.
  intros Htmp Hfree Hproc Hsink.
  pose proof (fallible_files_after_only_tmp proc w Hsink) as Hafter.
  assert (Hleft : <[tmp_path (Fallible.tmp_seq w) := Fallible.document proc w]>
                    (Fallible.fs w) <> Fallible.fs w).
  { intros Heq. apply (f_equal (fun m => m !! tmp_path (Fallible.tmp_seq w))) in Heq.
    rewrite lookup_insert_eq, Hfree in Heq. discriminate. }
  assert (Hkept : forall (e : Fallible.exn),
             Fallible.fs (snd (inl e : Fallible.exn + NmapScan,
                               Fallible.world_with_tmp options target proc w))
             = <[tmp_path (Fallible.tmp_seq w) := Fallible.document proc w]>
                 (Fallible.fs w)
             /\ Fallible.fs (snd (inl e : Fallible.exn + NmapScan,
                                  Fallible.world_with_tmp options target proc w))
                <> Fallible.fs w).
  { intros e. cbn [snd Fallible.fs Fallible.world_with_tmp]. rewrite Hafter. auto. }
  rewrite fallible_run_scan_eq, Htmp, Hproc. split.
  - intros Hz [text Htext] Hremove. rewrite Hz, Htext, Hremove. cbn [Z.eqb].
    assert (Hgone : delete (tmp_path (Fallible.tmp_seq w)) (Fallible.files_after proc w)
                    = Fallible.fs w).
    { rewrite Hafter, delete_insert_eq. now apply delete_id. }
    destruct (Fallible.parser text); exact Hgone.
  - intros Hcase.
    destruct (Z.eqb_spec (Fallible.returncode proc) 0) as [Hz|Hnz].
    + destruct (Fallible.read_back proc w) as [e|text] eqn:Hread; [apply Hkept|].
      destruct (Fallible.removal w) as [message|] eqn:Hremove; [apply Hkept|].
      exfalso. destruct Hcase as [Hnz|[[e He]|[message Hm]]];
        [contradiction | discriminate | discriminate].
    + destruct (Fallible.utf8_valid _); apply Hkept.
Qed.

(** X12. When [mkstemp] raises, [run_scan] raises that [OSError] and has
    created no file, started no engine and opened no descriptor. When
    [mkstemp] succeeds, [run_scan] ends with one more descriptor open
    than it began with, whatever its outcome: the descriptor [mkstemp]
    returned is never closed. And when the engine then cannot be started,
    [run_scan] raises the error of the start with no engine run recorded
    and the empty temporary file left behind. *)
Theorem tmp_file_and_descriptor_left (type : NmapScanTypes) (options : string)
        (target : option ScanTarget) (w : Fallible.World) :
  (forall message,
      Fallible.tmp_failure (Fallible.tmp_seq w) = Some message ->
      fst (Fallible.run_scan type options target w) = inl (Fallible.OSError message)
      /\ Fallible.fs (snd (Fallible.run_scan type options target w)) = Fallible.fs w
      /\ Fallible.events (snd (Fallible.run_scan type options target w))
         = Fallible.events w
      /\ Fallible.open_fds (snd (Fallible.run_scan type options target w))
         = Fallible.open_fds w)
  /\ (Fallible.tmp_failure (Fallible.tmp_seq w) = None ->
      Fallible.open_fds (snd (Fallible.run_scan type options target w))
      = S (Fallible.open_fds w))
  /\ (forall e,
         Fallible.tmp_failure (Fallible.tmp_seq w) = None ->
         Fallible.started options target w = inl e ->
         fst (Fallible.run_scan type options target w) = inl (Fallible.spawn_exn e)
         /\ Fallible.events (snd (Fallible.run_scan type options target w))
            = Fallible.events w
         /\ Fallible.fs (snd (Fallible.run_scan type options target w))
            = <[tmp_path (Fallible.tmp_seq w) := EmptyString]> (Fallible.fs w)).
Proof.
  rewrite fallible_run_scan_eq. split; [|split].
  - intros message ->. auto.
  - intros ->. destruct (Fallible.started options target w) as [e|proc]; [reflexivity|].
    destruct (Fallible.returncode proc =? 0).
    + destruct (Fallible.read_back proc w); [reflexivity|].
      destruct (Fallible.removal w); [reflexivity|].
      destruct (Fallible.parser _); reflexivity.
    + destruct (Fallible.utf8_valid _); reflexivity.
  - intros e -> ->. auto.
Qed.

End FallibleExecutor.

(** The executor of the sweep is the executor with failures on a platform
    where [mkstemp], the start of the engine, [open] and [os.remove] do
    not fail, files are read as they are and a failing engine leaves valid
    UTF-8 on standard error: same outcome, same files, same events, one
    more descriptor. *)
Lemma run_scan_agrees_without_failures (C : Collaborators) (type : NmapScanTypes)
      (options : string) (target : option ScanTarget) (w : World) (fds : nat) :
  (returncode (engine_run options target w) <> 0 ->
   Fallible.utf8_valid (stderr (engine_run options target w)) = true) ->
  same_outcome
    (fst (run_scan type options target w))
    (fst (@Fallible.run_scan (platform_of_collaborators C) type options target
            (with_descriptors fds w)))
  /\ snd (@Fallible.run_scan (platform_of_collaborators C) type options target
            (with_descriptors fds w))
     = with_descriptors (S fds) (snd (run_scan type options target w)).
Proof.
  intros Hvalid. rewrite run_scan_eq, fallible_run_scan_eq, xml_document_eq.
  cbn [Fallible.tmp_failure platform_of_collaborators].
  unfold Fallible.started, Fallible.issued_command, Fallible.read_back, Fallible.removal.
  cbn [Fallible.engine platform_of_collaborators Fallible.nmap_runs Fallible.tmp_seq
       with_descriptors Fallible.returncode Fallible.stderr Fallible.text_of
       Fallible.open_failure Fallible.remove_failure Fallible.parser].
  change (nmap (nmap_runs w) (nmap_cmd options (tmp_path (tmp_seq w)) target))
    with (engine_run options target w).
  destruct (Z.eqb_spec (returncode (engine_run options target w)) 0) as [Hz|Hnz].
  - unfold Fallible.document.
    cbn [Fallible.files_written Fallible.tmp_seq with_descriptors].
    destruct (parse_nmap_xml _); split; try constructor; reflexivity.
  - rewrite (Hvalid Hnz). split; [constructor | reflexivity].
Qed.

(** C7, against the claim as stated. The engine exits with status zero,
    yet [run_scan] returns no scan because the parser rejects the
    document; and the engine exits with status 1, yet [run_scan] does not
    raise [NmapFailure] because the byte on standard error is not UTF-8
    and the decoding inside the [raise] fails first. *)
Lemma exit_status_alone_decides_nothing_counterexample :
  (@Fallible.started (Fallible.scenario None (inr (0, EmptyString, "<nmaprun"%string)))
     "-sS" (Some (Network net_192_168_1_0_24)) Fallible.empty_world
   = inr (Fallible.mkCompletedProcess 0 EmptyString
            [("/tmp/tmp0"%string, "<nmaprun"%string)])
   /\ fst (@Fallible.run_scan
             (Fallible.scenario None (inr (0, EmptyString, "<nmaprun"%string)))
             PORT_SCAN "-sS" (Some (Network net_192_168_1_0_24)) Fallible.empty_world)
      = inl (Fallible.ParseError "not well-formed"))
  /\ (@Fallible.started (Fallible.scenario None (inr (1, Fallible.not_utf8, EmptyString)))
        "-sS" (Some (Network net_192_168_1_0_24)) Fallible.empty_world
      = inr (Fallible.mkCompletedProcess 1 Fallible.not_utf8
               [("/tmp/tmp0"%string, EmptyString)])
      /\ fst (@Fallible.run_scan
                (Fallible.scenario None (inr (1, Fallible.not_utf8, EmptyString)))
                PORT_SCAN "-sS" (Some (Network net_192_168_1_0_24)) Fallible.empty_world)
         = inl Fallible.UnicodeDecodeError).
Proof. repeat split; vm_compute; reflexivity. Qed.

(** The engine exits with status 1 and a readable message: [NmapFailure]
    with both. The engine exits with status 0 and the link-local
    document: the scan with the host fe80::1. *)
Lemma nmap_failure_iff_nonzero_exit_and_text_witness :
  fst (@Fallible.run_scan
         (Fallible.scenario None (inr (1, "failed to open device lan0"%string, EmptyString)))
         PORT_SCAN "-sS" (Some (Network net_192_168_1_0_24)) Fallible.empty_world)
  = inl (Fallible.NmapFailure 1 "failed to open device lan0")
  /\ fst (@Fallible.run_scan
            (Fallible.scenario None (inr (0, EmptyString, "<ll/>"%string)))
            IPV6_LINK_LOCAL_DISCOVERY "-6 -R -sn" None Fallible.empty_world)
     = inr (mkNmapScan (Some IPV6_LINK_LOCAL_DISCOVERY) None [host_fe80_1]).
Proof.
  split.
  - apply (proj1 (@nmap_failure_iff_nonzero_exit_and_text
                    (Fallible.scenario None
                       (inr (1, "failed to open device lan0"%string, EmptyString)))
                    PORT_SCAN "-sS" (Some (Network net_192_168_1_0_24))
                    Fallible.empty_world)).
    split; [reflexivity|]. eexists. split; [reflexivity|].
    split; [discriminate|]. split; [vm_compute; reflexivity|]. split; reflexivity.
  - rewrite (proj2 (proj2 (@nmap_failure_iff_nonzero_exit_and_text
                             (Fallible.scenario None (inr (0, EmptyString, "<ll/>"%string)))
                             IPV6_LINK_LOCAL_DISCOVERY "-6 -R -sn" None
                             Fallible.empty_world))
               _ eq_refl eq_refl eq_refl).
    vm_compute. reflexivity.
Defined.

Lemma returned_hosts_come_from_decoded_document_witness :
  exists (proc : Fallible.CompletedProcess) (text : string),
    @Fallible.started (Fallible.scenario None (inr (0, EmptyString, "<arp/>"%string)))
      "-sn -R -PR" (Some (Network net_192_168_1_0_24)) Fallible.empty_world = inr proc
    /\ Fallible.returncode proc = 0
    /\ @Fallible.open_failure
         (Fallible.scenario None (inr (0, EmptyString, "<arp/>"%string)))
         (tmp_path (Fallible.tmp_seq Fallible.empty_world)) = None
    /\ @Fallible.text_of (Fallible.scenario None (inr (0, EmptyString, "<arp/>"%string)))
         (default EmptyString
            (last_written (tmp_path (Fallible.tmp_seq Fallible.empty_world))
                          (Fallible.files_written proc)))
       = Some text
    /\ @Fallible.remove_failure
         (Fallible.scenario None (inr (0, EmptyString, "<arp/>"%string)))
         (tmp_path (Fallible.tmp_seq Fallible.empty_world)) = None
    /\ @Fallible.parser (Fallible.scenario None (inr (0, EmptyString, "<arp/>"%string)))
         text
       = inr (hosts (mkNmapScan (Some ARP_DISCOVERY) (Some "192.168.1.0/24"%string)
                                [host_192_168_1_5]))
    /\ mkNmapScan (Some ARP_DISCOVERY) (Some "192.168.1.0/24"%string) [host_192_168_1_5]
       = returned_scan ARP_DISCOVERY (Some (Network net_192_168_1_0_24))
           (hosts (mkNmapScan (Some ARP_DISCOVERY) (Some "192.168.1.0/24"%string)
                              [host_192_168_1_5])).
Proof.
  apply (@returned_hosts_come_from_decoded_document
           (Fallible.scenario None (inr (0, EmptyString, "<arp/>"%string)))
           ARP_DISCOVERY "-sn -R -PR" (Some (Network net_192_168_1_0_24))
           Fallible.empty_world
           (snd (@Fallible.run_scan
                   (Fallible.scenario None (inr (0, EmptyString, "<arp/>"%string)))
                   ARP_DISCOVERY "-sn -R -PR" (Some (Network net_192_168_1_0_24))
                   Fallible.empty_world))).
  vm_compute. reflexivity.
Defined.

(** The document is read and removed: the files are as before. The
    document is not UTF-8 under a UTF-8 locale, or no descriptor is left
    to open it: the engine exited with status zero and the temporary file
    is left behind. *)
Lemma files_restored_iff_document_read_witness :
  Fallible.fs (snd (@Fallible.run_scan
                      (Fallible.scenario None (inr (0, EmptyString, "<arp/>"%string)))
                      ARP_DISCOVERY "-sn -R -PR" (Some (Network net_192_168_1_0_24))
                      Fallible.empty_world))
  = Fallible.fs Fallible.empty_world
  /\ Fallible.fs (snd (@Fallible.run_scan
                         (Fallible.scenario None (inr (0, EmptyString, Fallible.not_utf8)))
                         ARP_DISCOVERY "-sn -R -PR" (Some (Network net_192_168_1_0_24))
                         Fallible.empty_world))
     <> Fallible.fs Fallible.empty_world
  /\ Fallible.fs (snd (@Fallible.run_scan
                         (Fallible.scenario_no_descriptor
                            (inr (0, EmptyString, "<arp/>"%string)))
                         ARP_DISCOVERY "-sn -R -PR" (Some (Network net_192_168_1_0_24))
                         Fallible.empty_world))
     <> Fallible.fs Fallible.empty_world.
Proof.
  split; [|split].
  - apply (proj1 (@files_restored_iff_document_read
                    (Fallible.scenario None (inr (0, EmptyString, "<arp/>"%string)))
                    ARP_DISCOVERY "-sn -R -PR" (Some (Network net_192_168_1_0_24))
                    Fallible.empty_world
                    (Fallible.mkCompletedProcess 0 EmptyString
                       [("/tmp/tmp0"%string, "<arp/>"%string)])
                    eq_refl eq_refl eq_refl
                    ltac:(vm_compute; repeat constructor)));
      [reflexivity | eexists; vm_compute; reflexivity | reflexivity].
  - apply (proj2 (@files_restored_iff_document_read
                    (Fallible.scenario None (inr (0, EmptyString, Fallible.not_utf8)))
                    ARP_DISCOVERY "-sn -R -PR" (Some (Network net_192_168_1_0_24))
                    Fallible.empty_world
                    (Fallible.mkCompletedProcess 0 EmptyString
                       [("/tmp/tmp0"%string, Fallible.not_utf8)])
                    eq_refl eq_refl eq_refl
                    ltac:(vm_compute; repeat constructor))).
    right. left. eexists. vm_compute. reflexivity.
  - apply (proj2 (@files_restored_iff_document_read
                    (Fallible.scenario_no_descriptor
                       (inr (0, EmptyString, "<arp/>"%string)))
                    ARP_DISCOVERY "-sn -R -PR" (Some (Network net_192_168_1_0_24))
                    Fallible.empty_world
                    (Fallible.mkCompletedProcess 0 EmptyString
                       [("/tmp/tmp0"%string, "<arp/>"%string)])
                    eq_refl eq_refl eq_refl
                    ltac:(vm_compute; repeat constructor))).
    right. left. eexists. vm_compute. reflexivity.
Defined.

(** No descriptor is left for [mkstemp]: nothing happens. The engine is
    not installed: the empty temporary file stays and a descriptor stays
    open. *)
Lemma tmp_file_and_descriptor_left_witness :
  fst (@Fallible.run_scan
         (Fallible.scenario (Some "Too many open files"%string)
                            (inr (0, EmptyString, EmptyString)))
         PORT_SCAN "-sS" (Some (Network net_192_168_1_0_24)) Fallible.empty_world)
  = inl (Fallible.OSError "Too many open files")
  /\ Fallible.open_fds
       (snd (@Fallible.run_scan
               (Fallible.scenario None (inl (Fallible.SpawnOSError "No such file: nmap")))
               PORT_SCAN "-sS" (Some (Network net_192_168_1_0_24)) Fallible.empty_world))
     = 1%nat
  /\ Fallible.fs
       (snd (@Fallible.run_scan
               (Fallible.scenario None (inl (Fallible.SpawnOSError "No such file: nmap")))
               PORT_SCAN "-sS" (Some (Network net_192_168_1_0_24)) Fallible.empty_world))
     = <[tmp_path 0 := EmptyString]> (Fallible.fs Fallible.empty_world).
Proof.
  split; [|split].
  - apply (proj1 (@tmp_file_and_descriptor_left
                    (Fallible.scenario (Some "Too many open files"%string)
                                       (inr (0, EmptyString, EmptyString)))
                    PORT_SCAN "-sS" (Some (Network net_192_168_1_0_24))
                    Fallible.empty_world) _ eq_refl).
  - apply (proj1 (proj2 (@tmp_file_and_descriptor_left
                           (Fallible.scenario None
                              (inl (Fallible.SpawnOSError "No such file: nmap")))
                           PORT_SCAN "-sS" (Some (Network net_192_168_1_0_24))
                           Fallible.empty_world)) eq_refl).
  - apply (proj2 (proj2 (@tmp_file_and_descriptor_left
                           (Fallible.scenario None
                              (inl (Fallible.SpawnOSError "No such file: nmap")))
                           PORT_SCAN "-sS" (Some (Network net_192_168_1_0_24))
                           Fallible.empty_world)) _ eq_refl eq_refl).
Defined.
